(** * pimsviewer widgets: the playback timer and the slider of [widgets.py]

    A shallow embedding of [VideoTimer] and [Slider].  Python objects become
    records, an attribute that may not have been assigned yet is an [option],
    an exception is the [Raise] branch of [result].

    Numbers: a Python [int] is a [Z].  There are two models of a Python
    [float].  The first, [pynum] with [VideoTimer] and [Slider], takes it
    as an exact rational [Q]; it carries the properties that do not depend
    on rounding: which attribute is read, which error is raised, what is
    stored and what stays as it was.  The second, [B64] with
    [VideoTimer64] and [Slider64], takes it as an IEEE 754 binary64 value,
    with rounding to nearest, infinities and NaN, takes the [int]
    parameters of the Qt methods as C ints of 32 bits, and lets the
    callback be [None]; it carries the properties that depend on the
    number computed. *)

From Stdlib Require Import ZArith QArith Qround Qabs String Ascii List Bool Lia Lqa.
From Stdlib Require Import Qcanon DecimalString.
Import ListNotations.

Open Scope Z_scope.

(** ** Python values and exceptions *)

Inductive pynum : Type :=
| PyInt (z : Z)
| PyFloat (q : Q).

(** A Python value of the kinds these classes handle; [None] is Python's
    [None]. *)
Definition pyval : Type := option pynum.
Definition PyNone : pyval := None.

(** An instance attribute: [None] when it was never assigned. *)
Definition attr : Type := option pyval.

Inductive pyerr : Type :=
| TypeError
| AttributeError
| ZeroDivisionError
| ValueError
| OverflowError.

Inductive result (A : Type) : Type :=
| Ok (a : A)
| Raise (e : pyerr).
Arguments Ok {A} a.
Arguments Raise {A} e.

Definition bind {A B : Type} (r : result A) (k : A -> result B) : result B :=
  match r with
  | Ok a => k a
  | Raise e => Raise e
  end.

Notation "x <- r ;; k" := (bind r (fun x => k))
  (at level 61, r at next level, right associativity).

Definition raises {A : Type} (r : result A) : Prop :=
  exists e, r = Raise e.

Definition succeeds {A : Type} (r : result A) : Prop :=
  exists a, r = Ok a.

(** ** Python arithmetic, exact

    The operators on exact numbers: no result is rounded, none overflows,
    and a C [int] holds any integer.  [B64] further down has the operators
    as the interpreter executes them. *)

Definition num_Q (a : pynum) : Q :=
  match a with
  | PyInt z => inject_Z z
  | PyFloat q => q
  end.

Definition is_zero (a : pynum) : bool :=
  match a with
  | PyInt z => Z.eqb z 0
  | PyFloat q => Qeq_bool q 0
  end.

(** Rounding towards zero: [int(x)] on a float, and the conversion the Qt
    binding applies to a float passed where the C++ signature has [int]. *)
Definition Qtrunc (q : Q) : Z :=
  if Qle_bool 0 q then Qfloor q else Qceiling q.

(** [int(a)] *)
Definition py_int (a : pynum) : Z :=
  match a with
  | PyInt z => z
  | PyFloat q => Qtrunc q
  end.

(** [float(a)] on a number *)
Definition py_float_of_num (a : pynum) : pynum := PyFloat (num_Q a).

(** Operands of a binary arithmetic operator: [None] is a [TypeError]. *)
Definition operands (a b : pyval) : result (pynum * pynum) :=
  match a, b with
  | Some x, Some y => Ok (x, y)
  | _, _ => Raise TypeError
  end.

Definition num_sub (x y : pynum) : pynum :=
  match x, y with
  | PyInt a, PyInt b => PyInt (a - b)
  | _, _ => PyFloat (num_Q x - num_Q y)
  end.

Definition num_add (x y : pynum) : pynum :=
  match x, y with
  | PyInt a, PyInt b => PyInt (a + b)
  | _, _ => PyFloat (num_Q x + num_Q y)
  end.

Definition num_mul (x y : pynum) : pynum :=
  match x, y with
  | PyInt a, PyInt b => PyInt (a * b)
  | _, _ => PyFloat (num_Q x * num_Q y)
  end.

(** [x / y] under [from __future__ import division]: always a float. *)
Definition num_truediv (x y : pynum) : result pynum :=
  if is_zero y then Raise ZeroDivisionError
  else Ok (PyFloat (num_Q x / num_Q y)).

(** [x // y]: the floor of the quotient, an int for two ints and a float
    otherwise. *)
Definition num_floordiv (x y : pynum) : result pynum :=
  if is_zero y then Raise ZeroDivisionError
  else match x, y with
       | PyInt a, PyInt b => Ok (PyInt (a / b))
       | _, _ => Ok (PyFloat (inject_Z (Qfloor (num_Q x / num_Q y))))
       end.

(** [x % y]: the remainder has the sign of [y], as [Z.modulo] has. *)
Definition num_mod (x y : pynum) : result pynum :=
  if is_zero y then Raise ZeroDivisionError
  else match x, y with
       | PyInt a, PyInt b => Ok (PyInt (a mod b))
       | _, _ =>
           Ok (PyFloat (num_Q x
                        - num_Q y * inject_Z (Qfloor (num_Q x / num_Q y))))
       end.

Definition py_sub (a b : pyval) : result pyval :=
  p <- operands a b ;; Ok (Some (num_sub (fst p) (snd p))).

Definition py_add (a b : pyval) : result pyval :=
  p <- operands a b ;; Ok (Some (num_add (fst p) (snd p))).

Definition py_mul (a b : pyval) : result pyval :=
  p <- operands a b ;; Ok (Some (num_mul (fst p) (snd p))).

Definition py_truediv (a b : pyval) : result pyval :=
  p <- operands a b ;; r <- num_truediv (fst p) (snd p) ;; Ok (Some r).

Definition py_floordiv (a b : pyval) : result pyval :=
  p <- operands a b ;; r <- num_floordiv (fst p) (snd p) ;; Ok (Some r).

Definition py_mod (a b : pyval) : result pyval :=
  p <- operands a b ;; r <- num_mod (fst p) (snd p) ;; Ok (Some r).

(** [int(a)] on a value: [int(None)] is a [TypeError]. *)
Definition py_int_val (a : pyval) : result pyval :=
  match a with
  | Some x => Ok (Some (PyInt (py_int x)))
  | None => Raise TypeError
  end.

(** A value passed to a Qt method whose C++ parameter is [int]: a float is
    converted as [int()] converts it, [None] is refused. *)
Definition qt_int (a : pyval) : result Z :=
  match a with
  | Some x => Ok (py_int x)
  | None => Raise TypeError
  end.

(** Reading an attribute of [self]. *)
Definition getattr (a : attr) : result pyval :=
  match a with
  | Some v => Ok v
  | None => Raise AttributeError
  end.

(** ** VideoTimer *)

Module VideoTimer.

(** The [QTimer] base object: its period in milliseconds and whether it is
    running.  [setInterval] takes a C++ [int]. *)
Record QTimer : Type := mkQTimer {
  interval_ms : Z;
  active : bool
}.

Record t : Type := mk {
  base : QTimer;
  index : attr;
  _len : attr;
  start_index : attr;
  start_time : attr;
  _interval : attr
}.

(** [__init__]: only [index] and [_len] are assigned. *)
Definition init : t :=
  {| base := {| interval_ms := 0; active := false |};
     index := Some PyNone;
     _len := Some PyNone;
     start_index := None;
     start_time := None;
     _interval := None |}.

(** The [fps] getter: [1 / self._interval]. *)
Definition fps (self : t) : result pyval :=
  i <- getattr (_interval self) ;;
  py_truediv (Some (PyInt 1)) i.

(** The [fps] setter. *)
Definition set_fps (self : t) (value : pyval) : result t :=
  i <- py_truediv (Some (PyInt 1)) value ;;
  let self1 :=
    {| base := base self; index := index self; _len := _len self;
       start_index := start_index self; start_time := start_time self;
       _interval := Some i |} in
  ms <- py_mul i (Some (PyInt 1000)) ;;
  n <- qt_int ms ;;
  Ok {| base := {| interval_ms := n; active := active (base self1) |};
        index := index self1; _len := _len self1;
        start_index := start_index self1;
        start_time := start_time self1;
        _interval := _interval self1 |}.

(** [start(index, length)]; [now] is what [time()] returns.  No statement
    of the method can raise. *)
Definition start (self : t) (idx length : pyval) (now : Q) : result t :=
  Ok
  {| base := {| interval_ms := interval_ms (base self); active := true |};
     index := index self;
     _len := Some length;
     start_index := Some idx;
     start_time := Some (Some (PyFloat now));
     _interval := _interval self |}.

Definition stop (self : t) : t :=
  {| base := {| interval_ms := interval_ms (base self); active := false |};
     index := index self;
     _len := Some PyNone;
     start_index := Some PyNone;
     start_time := Some PyNone;
     _interval := _interval self |}.

(** [next()]: the value handed to [next_frame.emit]; the object itself is
    not modified.  [now] is what [time()] returns. *)
Definition next (self : t) (now : Q) : result pyval :=
  t0 <- getattr (start_time self) ;;
  dt <- py_sub (Some (PyFloat now)) t0 ;;
  i <- getattr (_interval self) ;;
  steps <- py_floordiv dt i ;;
  idx <- py_int_val steps ;;
  s <- getattr (start_index self) ;;
  idx1 <- py_add idx s ;;
  n <- getattr (_len self) ;;
  py_mod idx1 n.

(** A running clock: [start] recorded an integer index, an integer length
    and the time, a frame rate was set, and [stop] was not called since. *)
Record running (c : t) (s l : Z) (t0 i : Q) : Prop := {
  run_active : active (base c) = true;
  run_index : start_index c = Some (Some (PyInt s));
  run_len : _len c = Some (Some (PyInt l));
  run_time : start_time c = Some (Some (PyFloat t0));
  run_interval : _interval c = Some (Some (PyFloat i));
  run_interval_nonzero : ~ i == 0
}.

(** The clock is idle before the first [start] and after every [stop]. *)
Inductive idle : t -> Prop :=
| idle_init : idle init
| idle_fps (c : t) (v : pyval) (c' : t) :
    idle c -> set_fps c v = Ok c' -> idle c'
| idle_stop (c : t) : idle (stop c).

(** A clock whose [fps] was never assigned: only [start] and [stop] were
    called on it since it was made. *)
Inductive unconfigured : t -> Prop :=
| unconfigured_init : unconfigured init
| unconfigured_start (c : t) (idx length : pyval) (now : Q) (c' : t) :
    unconfigured c -> start c idx length now = Ok c' -> unconfigured c'
| unconfigured_stop (c : t) : unconfigured c -> unconfigured (stop c).

End VideoTimer.

(** ** Text: the interpreter's conversions between numbers and strings *)

(** What [float(s)] returns on a string: Python also reads [inf] and [nan]. *)
Inductive pyfloat : Type :=
| Finite (q : Q)
| Inf (negative : bool)
| NaN.

(** The slider only moves these conversions around, so the development is
    parametric in them: [float_of_str] is [float(s)] ([None] when it raises
    [ValueError]), [str_of] is [str(v)], [format_of spec v] is
    [spec.format(v)] or [spec % v]. *)
Class PyText : Type := {
  float_of_str : string -> option pyfloat;
  str_of : pyval -> string;
  format_of : string -> pyval -> string
}.

(** [low <= x] and [x <= high] for a parsed float. *)
Definition num_le_float (low : pynum) (x : pyfloat) : bool :=
  match x with
  | Finite q => Qle_bool (num_Q low) q
  | Inf negative => negb negative
  | NaN => false
  end.

Definition float_le_num (x : pyfloat) (high : pynum) : bool :=
  match x with
  | Finite q => Qle_bool q (num_Q high)
  | Inf negative => negative
  | NaN => false
  end.

(** ** The Qt objects a slider owns *)

Module QSlider.

(** [QAbstractSlider]: an integer position kept inside [minimum, maximum]. *)
Record t : Type := mk {
  minimum : Z;
  maximum : Z;
  value : Z
}.

(** A new [QSlider]: range 0..99, position 0. *)
Definition new : t := {| minimum := 0; maximum := 99; value := 0 |}.

Definition bound (s : t) (v : Z) : Z :=
  Z.max (minimum s) (Z.min (maximum s) v).

(** [setValue(v)]: the position is clamped to the range. *)
Definition setValue (s : t) (v : Z) : t :=
  {| minimum := minimum s; maximum := maximum s; value := bound s v |}.

(** [setRange(lo, hi)]: the maximum is never below the minimum, and the
    position is clamped to the new range. *)
Definition setRange (s : t) (lo hi : Z) : t :=
  setValue {| minimum := lo; maximum := Z.max lo hi; value := value s |}
           (value s).

End QSlider.

Record QLineEdit : Type := mkQLineEdit {
  text : string;
  styleSheet : string
}.

Definition setText (e : QLineEdit) (s : string) : QLineEdit :=
  {| text := s; styleSheet := styleSheet e |}.

Definition setStyleSheet (e : QLineEdit) (s : string) : QLineEdit :=
  {| text := text e; styleSheet := s |}.

(** ** Slider *)

Module Slider.

Section WithText.
Context {T : PyText}.

(** [calls] is the log of the calls made to [self.callback], most recent
    last; [on_move] and [on_release] say which signal of the [QSlider] is
    connected to [_on_slider_changed]. *)
Record t : Type := mk {
  name : string;
  calls : list (string * pyval);
  vertical : bool;
  slider : QSlider.t;
  _scale : attr;
  value_fmt : string;
  value_type : string;
  _low : pynum;
  _high : pynum;
  on_move : bool;
  on_release : bool;
  editbox : option QLineEdit
}.

Definition with_slider (self : t) (s : QSlider.t) : t :=
  {| name := name self; calls := calls self; vertical := vertical self;
     slider := s; _scale := _scale self; value_fmt := value_fmt self;
     value_type := value_type self; _low := _low self; _high := _high self;
     on_move := on_move self; on_release := on_release self;
     editbox := editbox self |}.

Definition with_editbox (self : t) (e : option QLineEdit) : t :=
  {| name := name self; calls := calls self; vertical := vertical self;
     slider := slider self; _scale := _scale self;
     value_fmt := value_fmt self; value_type := value_type self;
     _low := _low self; _high := _high self;
     on_move := on_move self; on_release := on_release self;
     editbox := e |}.

Definition with_call (self : t) (v : pyval) : t :=
  {| name := name self; calls := calls self ++ [(name self, v)];
     vertical := vertical self;
     slider := slider self; _scale := _scale self;
     value_fmt := value_fmt self; value_type := value_type self;
     _low := _low self; _high := _high self;
     on_move := on_move self; on_release := on_release self;
     editbox := editbox self |}.

Definition with_connection (self : t) (move release : bool) : t :=
  {| name := name self; calls := calls self; vertical := vertical self;
     slider := slider self; _scale := _scale self;
     value_fmt := value_fmt self; value_type := value_type self;
     _low := _low self; _high := _high self;
     on_move := move; on_release := release;
     editbox := editbox self |}.

(** The [val] getter. *)
Definition val (self : t) : result pyval :=
  let value := Some (PyInt (QSlider.value (slider self))) in
  if String.eqb (value_type self) "float" then
    sc <- getattr (_scale self) ;;
    scaled <- py_mul value sc ;;
    py_add scaled (Some (_low self))
  else Ok value.

(** [self.editbox.<method>(...)]: an [AttributeError] while the edit box
    does not exist. *)
Definition on_editbox (self : t) (f : QLineEdit -> QLineEdit) : result t :=
  match editbox self with
  | Some e => Ok (with_editbox self (Some (f e)))
  | None => Raise AttributeError
  end.

(** [_on_slider_changed] *)
Definition _on_slider_changed (self : t) : result t :=
  value <- val self ;;
  self1 <- on_editbox self (fun e => setText e (str_of value)) ;;
  Ok (with_call self1 value).

(** [self.slider.setValue(value)]: [valueChanged] is emitted when the
    position changes, and runs [_on_slider_changed] when connected to it. *)
Definition slider_setValue (self : t) (value : pyval) : result t :=
  v <- qt_int value ;;
  let s' := QSlider.setValue (slider self) v in
  let self1 := with_slider self s' in
  if negb (Z.eqb (QSlider.value s') (QSlider.value (slider self)))
     && on_move self
  then _on_slider_changed self1
  else Ok self1.

(** The [val] setter. *)
Definition set_val (self : t) (value : pyval) : result t :=
  p <- (if String.eqb (value_type self) "float" then
          off <- py_sub value (Some (_low self)) ;;
          sc <- getattr (_scale self) ;;
          value1 <- py_truediv off sc ;;
          Ok (value1, format_of "{0:.4f}" value1)
        else Ok (value, str_of value)) ;;
  self1 <- slider_setValue self (fst p) ;;
  match editbox self1 with
  | Some e => Ok (with_editbox self1 (Some (setText e (snd p))))
  | None => Ok self1
  end.

Definition _good_editbox_input (self : t) : result t :=
  on_editbox self
    (fun e => setStyleSheet e "background-color: rgb(255, 255, 255)").

Definition _bad_editbox_input (self : t) : result t :=
  on_editbox self
    (fun e => setStyleSheet e "background-color: rgb(255, 200, 200)").

(** [_on_editbox_changed]: the text read is the one the edit box holds.
    [inf] and [nan] fail the comparison with the bounds, which are finite,
    so only a finite float reaches the assignment. *)
Definition _on_editbox_changed (self : t) : result t :=
  match editbox self with
  | None => Raise AttributeError
  | Some e =>
      match float_of_str (text e) with
      | None => _bad_editbox_input self
      | Some x =>
          if negb (num_le_float (_low self) x && float_le_num x (_high self))
          then _bad_editbox_input self
          else
            match x with
            | Finite q =>
                let value := Some (PyFloat q) in
                self1 <- set_val self value ;;
                self2 <- _good_editbox_input self1 ;;
                Ok (with_call self2 value)
            | _ => _bad_editbox_input self
            end
      end
  end.

(** [__init__(name, low, high, value, value_type, ..., orientation,
    update_on)].  The labels and the layout are not modelled. *)
Definition init (name0 : string) (low high : pynum) (value : pyval)
    (value_type0 orientation update_on : string) : result t :=
  value1 <- match value with
            | None => py_truediv (Some (num_sub high low)) (Some (PyFloat 2))
            | Some _ => Ok value
            end ;;
  vert <- (if String.eqb orientation "vertical" then Ok true
           else if String.eqb orientation "horizontal" then Ok false
           else Raise ValueError) ;;
  p <- (if String.eqb value_type0 "float" then
          sc <- py_truediv (Some (py_float_of_num (num_sub high low)))
                           (Some (PyInt 1000)) ;;
          Ok (Some sc, QSlider.setRange QSlider.new 0 1000, "%2.2f"%string)
        else if String.eqb value_type0 "int" then
          lo <- qt_int (Some low) ;;
          hi <- qt_int (Some high) ;;
          Ok (None, QSlider.setRange QSlider.new lo hi, "%d"%string)
        else Raise ValueError) ;;
  let self0 :=
    {| name := name0; calls := []; vertical := vert;
       slider := snd (fst p); _scale := fst (fst p); value_fmt := snd p;
       value_type := value_type0; _low := low; _high := high;
       on_move := false; on_release := false; editbox := None |} in
  self1 <- set_val self0 value1 ;;
  self2 <- (if String.eqb update_on "move"
            then Ok (with_connection self1 true false)
            else if String.eqb update_on "release"
            then Ok (with_connection self1 false true)
            else Raise ValueError) ;;
  shown <- val self2 ;;
  Ok (with_editbox self2
        (Some {| text := format_of (value_fmt self2) shown;
                 styleSheet := EmptyString |})).

(** The two style sheets of the edit box: the second one is the
    invalid-input indicator. *)
Definition good_style : string := "background-color: rgb(255, 255, 255)".
Definition bad_style : string := "background-color: rgb(255, 200, 200)".

(** The part of the state that fixes how a position maps to a value; no
    method changes it once [__init__] is done. *)
Definition scaling (s : t) : string * attr * pynum * pynum * (Z * Z) :=
  (value_type s, _scale s, _low s, _high s,
   (QSlider.minimum (slider s), QSlider.maximum (slider s))).

(** What [__init__] sets up for either value type: a float slider has its
    1000 steps and a non-zero [_scale], an int slider has the range of its
    bounds. *)
Record ranged (s : t) : Prop := {
  r_type : value_type s = "float"%string \/ value_type s = "int"%string;
  r_float :
    value_type s = "float"%string ->
    exists sc : Q,
      _scale s = Some (Some (PyFloat sc))
      /\ (sc == (num_Q (_high s) - num_Q (_low s)) / 1000)%Q
      /\ ~ (sc == 0)%Q
      /\ QSlider.minimum (slider s) = 0
      /\ QSlider.maximum (slider s) = 1000;
  r_int :
    value_type s = "int"%string ->
    QSlider.minimum (slider s) = py_int (_low s)
    /\ QSlider.maximum (slider s) = Z.max (py_int (_low s)) (py_int (_high s))
}.

(** The state of a slider whose [__init__] has returned. *)
Record constructed (s : t) : Prop := {
  c_ranged : ranged s;
  c_editbox : editbox s <> None
}.

(** The position [set_val] hands to [QSlider.setValue]. *)
Definition control (s : t) (x : pynum) : Z :=
  if String.eqb (value_type s) "float" then
    match _scale s with
    | Some (Some sc) => Qtrunc (num_Q (num_sub x (_low s)) / num_Q sc)
    | _ => 0
    end
  else py_int x.

(** The text the user has typed into the edit box. *)
Definition typed (s : t) (txt : string) : t :=
  match editbox s with
  | Some e => with_editbox s (Some (setText e txt))
  | None => s
  end.

(** The argument and the text the [val] setter computes from [x] on a
    slider whose [_scale] is a float: what goes to [QSlider.setValue] and
    what goes to the edit box. *)
Definition control_arg (s : t) (x : pynum) : pynum :=
  if String.eqb (value_type s) "float" then
    match _scale s with
    | Some (Some sc) => PyFloat (num_Q (num_sub x (_low s)) / num_Q sc)
    | _ => x
    end
  else x.

Definition control_text (s : t) (x : pynum) : string :=
  if String.eqb (value_type s) "float"
  then format_of "{0:.4f}" (Some (control_arg s x))
  else str_of (Some x).

(** The position lies in the range of the control. *)
Definition inside (s : t) : Prop :=
  QSlider.minimum (slider s) <= QSlider.value (slider s)
  /\ QSlider.value (slider s) <= QSlider.maximum (slider s).

(** The state every method finds and leaves: constructed, and with the
    position in range. *)
Definition sound (s : t) : Prop := constructed s /\ inside s.

Definition valid_orientation (o : string) : bool :=
  String.eqb o "vertical" || String.eqb o "horizontal".

Definition valid_value_type (v : string) : bool :=
  String.eqb v "float" || String.eqb v "int".

Definition valid_update_on (u : string) : bool :=
  String.eqb u "move" || String.eqb u "release".

End WithText.

End Slider.

(** ** A decimal instance of the text conversions

    Used to run the slider on concrete inputs.  [float(s)] follows the
    grammar of the interpreter's decimal literals without digit-group
    underscores; a float is printed from its exact rational value. *)

Module DecimalText.

Definition is_space (c : ascii) : bool :=
  let n := nat_of_ascii c in
  (Nat.eqb n 32 || (Nat.leb 9 n && Nat.leb n 13))%bool.

Fixpoint lstrip (l : list ascii) : list ascii :=
  match l with
  | c :: l' => if is_space c then lstrip l' else l
  | [] => []
  end.

Definition strip (l : list ascii) : list ascii :=
  rev (lstrip (rev (lstrip l))).

Definition lower (c : ascii) : ascii :=
  let n := nat_of_ascii c in
  if (Nat.leb 65 n && Nat.leb n 90)%bool then ascii_of_nat (n + 32) else c.

Definition digit (c : ascii) : option Z :=
  let n := nat_of_ascii c in
  if (Nat.leb 48 n && Nat.leb n 57)%bool then Some (Z.of_nat (n - 48))
  else None.

(** The leading digits of [l], accumulated onto [acc]: their value, how many
    there are, and what follows them. *)
Fixpoint digits (acc : Z) (count : nat) (l : list ascii)
  : Z * nat * list ascii :=
  match l with
  | c :: l' =>
      match digit c with
      | Some d => digits (10 * acc + d) (S count) l'
      | None => (acc, count, l)
      end
  | [] => (acc, count, [])
  end.

Definition sign (l : list ascii) : bool * list ascii :=
  match l with
  | "-"%char :: l' => (true, l')
  | "+"%char :: l' => (false, l')
  | _ => (false, l)
  end.

(** [m * 10 ^ e] *)
Definition scale10 (m e : Z) : Q :=
  if Z.leb 0 e then inject_Z (m * 10 ^ e)
  else Qmake m (Z.to_pos (10 ^ (- e))).

(** The exponent part, [None] when malformed. *)
Definition exponent (l : list ascii) : option Z :=
  match l with
  | [] => Some 0
  | c :: l' =>
      if Ascii.eqb (lower c) "e" then
        let (neg, l1) := sign l' in
        match digits 0 0 l1 with
        | (_, O, _) => None
        | (e, _, []) => Some (if neg then - e else e)
        | _ => None
        end
      else None
  end.

Definition unsigned_float (l : list ascii) : option pyfloat :=
  let low := string_of_list_ascii (map lower l) in
  if (String.eqb low "inf" || String.eqb low "infinity")%bool
  then Some (Inf false)
  else if String.eqb low "nan" then Some NaN
  else
    let '(ip, ni, l1) := digits 0 0 l in
    let '(m, nf, l2) :=
      match l1 with
      | "."%char :: l1' => digits ip 0 l1'
      | _ => (ip, O, l1)
      end in
    match (ni + nf)%nat with
    | O => None
    | _ =>
        match exponent l2 with
        | Some e => Some (Finite (scale10 m (e - Z.of_nat nf)))
        | None => None
        end
    end.

Definition parse_float (s : string) : option pyfloat :=
  let (neg, l) := sign (strip (list_ascii_of_string s)) in
  match unsigned_float l with
  | Some (Finite q) => Some (Finite (if neg then - q else q))
  | Some (Inf _) => Some (Inf neg)
  | Some NaN => Some NaN
  | None => None
  end.

Definition Z_str (z : Z) : string := NilZero.string_of_int (Z.to_int z).

(** Rounding to the nearest integer, ties to even. *)
Definition round_half_even (q : Q) : Z :=
  let f := Qfloor q in
  match Qcompare (q - inject_Z f) (1 # 2) with
  | Lt => f
  | Gt => f + 1
  | Eq => if Z.even f then f else f + 1
  end.

Fixpoint zeros (n : nat) : string :=
  match n with
  | O => EmptyString
  | S n' => String "0" (zeros n')
  end.

Definition zero_pad (width : nat) (s : string) : string :=
  (zeros (width - String.length s) ++ s)%string.

(** [m] hundredths, thousandths, ... ([places] digits after the point) of
    the sign [neg]. *)
Definition point (neg : bool) (m : Z) (places : nat) : string :=
  let p := 10 ^ Z.of_nat places in
  ((if neg then "-" else EmptyString)
   ++ Z_str (m / p) ++ "." ++ zero_pad places (Z_str (m mod p)))%string.

(** ['%.<places>f' % q] *)
Definition fixed (places : nat) (q : Q) : string :=
  let m := round_half_even (Qabs q * inject_Z (10 ^ Z.of_nat places)) in
  point (negb (Qle_bool 0 q)) m places.

(** The least number of places in [1 .. fuel + tried] at which [q] has no
    further digits, if there is one. *)
Fixpoint exact_places (fuel tried : nat) (q : Q) : option nat :=
  match fuel with
  | O => None
  | S fuel' =>
      let k := S tried in
      let x := (Qabs q * inject_Z (10 ^ Z.of_nat k))%Q in
      if Qeq_bool x (inject_Z (Qfloor x)) then Some k
      else exact_places fuel' k q
  end.

(** [str(q)]: every digit when the expansion ends within 16 places. *)
Definition float_str (q : Q) : string :=
  match exact_places 16 0 q with
  | Some k => fixed k q
  | None => fixed 16 q
  end.

Definition str (v : pyval) : string :=
  match v with
  | None => "None"
  | Some (PyInt z) => Z_str z
  | Some (PyFloat q) => float_str q
  end.

Definition format (spec : string) (v : pyval) : string :=
  match v with
  | None => "None"
  | Some x =>
      if String.eqb spec "%d" then Z_str (py_int x)
      else if String.eqb spec "%2.2f" then fixed 2 (num_Q x)
      else if String.eqb spec "{0:.4f}" then fixed 4 (num_Q x)
      else spec
  end.

Definition decimal_text : PyText :=
  {| float_of_str := parse_float; str_of := str; format_of := format |}.

End DecimalText.

(** ** Python floats as the interpreter has them: IEEE 754 binary64

    A float is its exact rational value, or an infinity, or a NaN
    ([pyfloat]); the two zeros are identified.  Every operation computes
    the exact result and rounds it to the nearest float, ties to even
    ([fl]).  A [Finite q] below is meant with [q] representable; the
    operations only produce such values. *)

Module B64.

(** [2 ^ e] *)
Definition pow2 (e : Z) : Q :=
  if Z.leb 0 e then inject_Z (2 ^ e) else Qmake 1 (Z.to_pos (2 ^ (- e))).

(** [floor (log2 a)] for [a > 0] *)
Definition ilog2 (a : Q) : Z :=
  let k := Z.log2 (Qnum a) - Z.log2 (Zpos (Qden a)) in
  if Qle_bool (pow2 k) a then k else k - 1.

Definition nearest_even (q : Q) : Z :=
  let f := Qfloor q in
  match Qcompare (q - inject_Z f) (1 # 2) with
  | Lt => f
  | Gt => f + 1
  | Eq => if Z.even f then f else f + 1
  end.

(** Rounding to binary64: 53 bits of mantissa, exponents down to the
    subnormal [2 ^ -1074]; what reaches [2 ^ 1024] is an infinity. *)
Definition fl (q : Q) : pyfloat :=
  let r := Qred q in
  if Qeq_bool r 0 then Finite 0
  else
    let a := Qabs r in
    let e := Z.max (ilog2 a - 52) (-1074) in
    let m := nearest_even (a * pow2 (- e)) in
    let v := Qred (inject_Z m * pow2 e) in
    if Qle_bool (pow2 1024) v then Inf (negb (Qle_bool 0 r))
    else Finite (if Qle_bool 0 r then v else - v).

Definition is_neg (q : Q) : bool := negb (Qle_bool 0 q).

Definition fneg (x : pyfloat) : pyfloat :=
  match x with
  | Finite q => Finite (- q)
  | Inf n => Inf (negb n)
  | NaN => NaN
  end.

Definition fadd (x y : pyfloat) : pyfloat :=
  match x, y with
  | NaN, _ | _, NaN => NaN
  | Inf a, Inf b => if Bool.eqb a b then Inf a else NaN
  | Inf a, Finite _ => Inf a
  | Finite _, Inf b => Inf b
  | Finite a, Finite b => fl (a + b)
  end.

Definition fsub (x y : pyfloat) : pyfloat := fadd x (fneg y).

Definition fmul (x y : pyfloat) : pyfloat :=
  match x, y with
  | NaN, _ | _, NaN => NaN
  | Inf a, Inf b => Inf (xorb a b)
  | Inf a, Finite q | Finite q, Inf a =>
      if Qeq_bool q 0 then NaN else Inf (xorb a (is_neg q))
  | Finite a, Finite b => fl (a * b)
  end.

Definition fis_zero (x : pyfloat) : bool :=
  match x with
  | Finite q => Qeq_bool q 0
  | _ => false
  end.

(** [x / y] in C, for [y] not zero. *)
Definition fdiv (x y : pyfloat) : pyfloat :=
  match x, y with
  | NaN, _ | _, NaN => NaN
  | Inf _, Inf _ => NaN
  | Inf a, Finite q => Inf (xorb a (is_neg q))
  | Finite _, Inf _ => Finite 0
  | Finite a, Finite b => fl (a / b)
  end.

(** [x < y]; false whenever a NaN is compared. *)
Definition flt (x y : pyfloat) : bool :=
  match x, y with
  | NaN, _ | _, NaN => false
  | Inf a, Inf b => a && negb b
  | Inf a, Finite _ => a
  | Finite _, Inf b => negb b
  | Finite a, Finite b => negb (Qle_bool b a)
  end.

Definition fle (x y : pyfloat) : bool :=
  match x, y with
  | NaN, _ | _, NaN => false
  | Inf a, Inf b => a || negb b
  | Inf a, Finite _ => a
  | Finite _, Inf b => negb b
  | Finite a, Finite b => Qle_bool a b
  end.

(** C's [fmod], for [y] not zero: exact, with the sign of [x]. *)
Definition fmod (x y : pyfloat) : pyfloat :=
  match x, y with
  | NaN, _ | _, NaN => NaN
  | Inf _, _ => NaN
  | Finite a, Inf _ => Finite a
  | Finite a, Finite b => Finite (Qred (a - b * inject_Z (Qtrunc (a / b))))
  end.

(** C's [floor]: exact. *)
Definition ffloor (x : pyfloat) : pyfloat :=
  match x with
  | Finite q => Finite (inject_Z (Qfloor q))
  | _ => x
  end.

(** The interpreter's [float_divmod], for [wx] not zero: the floored
    quotient and the remainder, which has the sign of [wx]. *)
Definition float_divmod (vx wx : pyfloat) : pyfloat * pyfloat :=
  let mod0 := fmod vx wx in
  let div0 := fdiv (fsub vx mod0) wx in
  let '(md, dv) :=
    if negb (fis_zero mod0) then
      if negb (Bool.eqb (flt wx (Finite 0)) (flt mod0 (Finite 0)))
      then (fadd mod0 wx, fsub div0 (Finite 1))
      else (mod0, div0)
    else (Finite 0, div0) in
  let floordiv :=
    if negb (fis_zero dv) then
      let f := ffloor dv in
      if flt (Finite (1 # 2)) (fsub dv f) then fadd f (Finite 1) else f
    else Finite 0 in
  (floordiv, md).

(** *** Numbers *)

Inductive num : Type :=
| Int (z : Z)
| Float (x : pyfloat).

Definition value : Type := option num.

(** The conversion of an operand to a C double: an int too large for a
    float is an [OverflowError]. *)
Definition to_float (a : num) : result pyfloat :=
  match a with
  | Int z =>
      match fl (inject_Z z) with
      | Inf _ => Raise OverflowError
      | x => Ok x
      end
  | Float x => Ok x
  end.

Definition sub (a b : num) : result num :=
  match a, b with
  | Int x, Int y => Ok (Int (x - y))
  | _, _ => x <- to_float a ;; y <- to_float b ;; Ok (Float (fsub x y))
  end.

Definition add (a b : num) : result num :=
  match a, b with
  | Int x, Int y => Ok (Int (x + y))
  | _, _ => x <- to_float a ;; y <- to_float b ;; Ok (Float (fadd x y))
  end.

Definition mul (a b : num) : result num :=
  match a, b with
  | Int x, Int y => Ok (Int (x * y))
  | _, _ => x <- to_float a ;; y <- to_float b ;; Ok (Float (fmul x y))
  end.

(** [a / b] under [from __future__ import division].  Two ints give the
    correctly rounded quotient. *)
Definition truediv (a b : num) : result num :=
  match a, b with
  | Int x, Int y =>
      if Z.eqb y 0 then Raise ZeroDivisionError
      else match fl (inject_Z x / inject_Z y) with
           | Inf _ => Raise OverflowError
           | q => Ok (Float q)
           end
  | _, _ =>
      x <- to_float a ;; y <- to_float b ;;
      if fis_zero y then Raise ZeroDivisionError else Ok (Float (fdiv x y))
  end.

Definition floordiv (a b : num) : result num :=
  match a, b with
  | Int x, Int y =>
      if Z.eqb y 0 then Raise ZeroDivisionError else Ok (Int (x / y))
  | _, _ =>
      x <- to_float a ;; y <- to_float b ;;
      if fis_zero y then Raise ZeroDivisionError
      else Ok (Float (fst (float_divmod x y)))
  end.

Definition modulo (a b : num) : result num :=
  match a, b with
  | Int x, Int y =>
      if Z.eqb y 0 then Raise ZeroDivisionError else Ok (Int (x mod y))
  | _, _ =>
      x <- to_float a ;; y <- to_float b ;;
      if fis_zero y then Raise ZeroDivisionError
      else Ok (Float (snd (float_divmod x y)))
  end.

(** [int(a)]: a NaN is a [ValueError], an infinity an [OverflowError]. *)
Definition int_of (a : num) : result Z :=
  match a with
  | Int z => Ok z
  | Float (Finite q) => Ok (Qtrunc q)
  | Float (Inf _) => Raise OverflowError
  | Float NaN => Raise ValueError
  end.

(** [float(a)] *)
Definition float_of (a : num) : result num :=
  x <- to_float a ;; Ok (Float x).

(** The exact value compared by [<=]: ints and floats compare by value. *)
Definition exact (a : num) : pyfloat :=
  match a with
  | Int z => Finite (inject_Z z)
  | Float x => x
  end.

Definition le (a b : num) : bool := fle (exact a) (exact b).


(** Operators on values: [None] is a [TypeError]. *)
Definition lift2 (f : num -> num -> result num) (a b : value)
  : result value :=
  match a, b with
  | Some x, Some y => r <- f x y ;; Ok (Some r)
  | _, _ => Raise TypeError
  end.

Definition vsub : value -> value -> result value := lift2 sub.
Definition vadd : value -> value -> result value := lift2 add.
Definition vmul : value -> value -> result value := lift2 mul.
Definition vtruediv : value -> value -> result value := lift2 truediv.
Definition vfloordiv : value -> value -> result value := lift2 floordiv.
Definition vmodulo : value -> value -> result value := lift2 modulo.

Definition vint (a : value) : result value :=
  match a with
  | Some x => z <- int_of x ;; Ok (Some (Int z))
  | None => Raise TypeError
  end.

Definition vfloat (a : value) : result value :=
  match a with
  | Some x => r <- float_of x ;; Ok (Some r)
  | None => Raise TypeError
  end.

(** A value passed where the Qt signature has a C [int]: converted as
    [int()] converts it, and refused with an [OverflowError] outside 32
    bits. *)
Definition c_int (a : value) : result Z :=
  match a with
  | Some x =>
      z <- int_of x ;;
      if (Z.leb (- 2 ^ 31) z && Z.ltb z (2 ^ 31))%bool then Ok z
      else Raise OverflowError
  | None => Raise TypeError
  end.

Definition getattr (a : option value) : result value :=
  match a with
  | Some v => Ok v
  | None => Raise AttributeError
  end.

End B64.

(** What a method leaves behind: the object after a normal return, or the
    object as it is when the exception leaves the method. *)
Inductive outcome (S : Type) : Type :=
| Done (s : S)
| Failed (s : S) (e : pyerr).
Arguments Done {S} s.
Arguments Failed {S} s e.

(** ** VideoTimer, with binary64 floats *)

Module VideoTimer64.

Record t : Type := mk {
  base : VideoTimer.QTimer;
  index : option B64.value;
  _len : option B64.value;
  start_index : option B64.value;
  start_time : option B64.value;
  _interval : option B64.value
}.

Definition init : t :=
  {| base := {| VideoTimer.interval_ms := 0; VideoTimer.active := false |};
     index := Some None;
     _len := Some None;
     start_index := None;
     start_time := None;
     _interval := None |}.

(** The [fps] getter *)
Definition fps (self : t) : result B64.value :=
  i <- B64.getattr (_interval self) ;;
  B64.vtruediv (Some (B64.Int 1)) i.

Definition with_interval (self : t) (i : B64.value) : t :=
  {| base := base self; index := index self; _len := _len self;
     start_index := start_index self; start_time := start_time self;
     _interval := Some i |}.

Definition with_period (self : t) (ms : Z) : t :=
  {| base := {| VideoTimer.interval_ms := ms;
                VideoTimer.active := VideoTimer.active (base self) |};
     index := index self; _len := _len self;
     start_index := start_index self; start_time := start_time self;
     _interval := _interval self |}.

(** The [fps] setter: [_interval] is assigned before [setInterval] is
    called. *)
Definition set_fps (self : t) (value : B64.value) : outcome t :=
  match B64.vtruediv (Some (B64.Int 1)) value with
  | Raise e => Failed self e
  | Ok i =>
      let self1 := with_interval self i in
      match (ms <- B64.vmul i (Some (B64.Int 1000)) ;; B64.c_int ms) with
      | Raise e => Failed self1 e
      | Ok n => Done (with_period self1 n)
      end
  end.

(** [start(index, length)]; [now] is what [time()] returns. *)
Definition start (self : t) (idx length : B64.value) (now : pyfloat) : t :=
  {| base := {| VideoTimer.interval_ms := VideoTimer.interval_ms (base self);
                VideoTimer.active := true |};
     index := index self;
     _len := Some length;
     start_index := Some idx;
     start_time := Some (Some (B64.Float now));
     _interval := _interval self |}.

Definition stop (self : t) : t :=
  {| base := {| VideoTimer.interval_ms := VideoTimer.interval_ms (base self);
                VideoTimer.active := false |};
     index := index self;
     _len := Some None;
     start_index := Some None;
     start_time := Some None;
     _interval := _interval self |}.

(** [next()]: the value given to [next_frame.emit]. *)
Definition next (self : t) (now : pyfloat) : result B64.value :=
  t0 <- B64.getattr (start_time self) ;;
  dt <- B64.vsub (Some (B64.Float now)) t0 ;;
  i <- B64.getattr (_interval self) ;;
  steps <- B64.vfloordiv dt i ;;
  idx <- B64.vint steps ;;
  s <- B64.getattr (start_index self) ;;
  idx1 <- B64.vadd idx s ;;
  n <- B64.getattr (_len self) ;;
  B64.vmodulo idx1 n.

(** A running clock with an integer start index and length and finite
    times. *)
Record running (c : t) (s l : Z) (t0 i : Q) : Prop := {
  run_index : start_index c = Some (Some (B64.Int s));
  run_len : _len c = Some (Some (B64.Int l));
  run_time : start_time c = Some (Some (B64.Float (Finite t0)));
  run_interval : _interval c = Some (Some (B64.Float (Finite i)));
  run_interval_nonzero : ~ i == 0
}.

End VideoTimer64.

(** ** Slider, with binary64 floats *)

(** The interpreter's conversions between floats and text, as [PyText] has
    them for the idealised numbers. *)
Class Text64 : Type := {
  float64_of_str : string -> option pyfloat;
  str64 : B64.value -> string;
  format64 : string -> B64.value -> string
}.

Module Slider64.

Section WithText.
Context {T : Text64}.

(** [callback] says whether a callable was given; [calls] logs the calls
    made to it. *)
Record t : Type := mk {
  name : string;
  callback : bool;
  calls : list (string * B64.value);
  vertical : bool;
  slider : QSlider.t;
  _scale : option B64.value;
  value_fmt : string;
  value_type : string;
  _low : B64.num;
  _high : B64.num;
  on_move : bool;
  on_release : bool;
  editbox : option QLineEdit
}.

Definition with_slider (self : t) (s : QSlider.t) : t :=
  {| name := name self; callback := callback self; calls := calls self;
     vertical := vertical self;
     slider := s; _scale := _scale self; value_fmt := value_fmt self;
     value_type := value_type self; _low := _low self; _high := _high self;
     on_move := on_move self; on_release := on_release self;
     editbox := editbox self |}.

Definition with_editbox (self : t) (e : option QLineEdit) : t :=
  {| name := name self; callback := callback self; calls := calls self;
     vertical := vertical self;
     slider := slider self; _scale := _scale self;
     value_fmt := value_fmt self; value_type := value_type self;
     _low := _low self; _high := _high self;
     on_move := on_move self; on_release := on_release self;
     editbox := e |}.

Definition with_call (self : t) (v : B64.value) : t :=
  {| name := name self; callback := callback self;
     calls := calls self ++ [(name self, v)];
     vertical := vertical self;
     slider := slider self; _scale := _scale self;
     value_fmt := value_fmt self; value_type := value_type self;
     _low := _low self; _high := _high self;
     on_move := on_move self; on_release := on_release self;
     editbox := editbox self |}.

Definition with_connection (self : t) (move release : bool) : t :=
  {| name := name self; callback := callback self; calls := calls self;
     vertical := vertical self;
     slider := slider self; _scale := _scale self;
     value_fmt := value_fmt self; value_type := value_type self;
     _low := _low self; _high := _high self;
     on_move := move; on_release := release;
     editbox := editbox self |}.

(** The [val] getter *)
Definition val (self : t) : result B64.value :=
  let value := Some (B64.Int (QSlider.value (slider self))) in
  if String.eqb (value_type self) "float" then
    sc <- B64.getattr (_scale self) ;;
    scaled <- B64.vmul value sc ;;
    B64.vadd scaled (Some (_low self))
  else Ok value.

(** [self.callback(self.name, value)]: calling [None] is a [TypeError]. *)
Definition call_callback (self : t) (v : B64.value) : outcome t :=
  if callback self then Done (with_call self v) else Failed self TypeError.

(** [_on_slider_changed] *)
Definition _on_slider_changed (self : t) : outcome t :=
  match val self with
  | Raise e => Failed self e
  | Ok value =>
      match editbox self with
      | None => Failed self AttributeError
      | Some e =>
          call_callback
            (with_editbox self (Some (setText e (str64 value)))) value
      end
  end.

(** [self.slider.setValue(value)]; when the position changes and
    [valueChanged] is connected, [_on_slider_changed] runs before
    [setValue] returns, and an exception it raises ends the call. *)
Definition slider_setValue (self : t) (value : B64.value) : outcome t :=
  match B64.c_int value with
  | Raise e => Failed self e
  | Ok v =>
      let s' := QSlider.setValue (slider self) v in
      let self1 := with_slider self s' in
      if negb (Z.eqb (QSlider.value s') (QSlider.value (slider self)))
         && on_move self
      then _on_slider_changed self1
      else Done self1
  end.

(** What the [val] setter computes before it touches the control: the
    argument of [setValue] and the text for the edit box. *)
Definition setter_args (self : t) (value : B64.value)
  : result (B64.value * string) :=
  if String.eqb (value_type self) "float" then
    off <- B64.vsub value (Some (_low self)) ;;
    sc <- B64.getattr (_scale self) ;;
    value1 <- B64.vtruediv off sc ;;
    Ok (value1, format64 "{0:.4f}" value1)
  else Ok (value, str64 value).

(** The [val] setter *)
Definition set_val (self : t) (value : B64.value) : outcome t :=
  match setter_args self value with
  | Raise e => Failed self e
  | Ok p =>
      match slider_setValue self (fst p) with
      | Failed s e => Failed s e
      | Done self1 =>
          match editbox self1 with
          | Some e => Done (with_editbox self1 (Some (setText e (snd p))))
          | None => Done self1
          end
      end
  end.

Definition set_style (self : t) (style : string) : outcome t :=
  match editbox self with
  | Some e => Done (with_editbox self (Some (setStyleSheet e style)))
  | None => Failed self AttributeError
  end.

Definition _good_editbox_input (self : t) : outcome t :=
  set_style self "background-color: rgb(255, 255, 255)".

Definition _bad_editbox_input (self : t) : outcome t :=
  set_style self "background-color: rgb(255, 200, 200)".

(** [_on_editbox_changed] *)
Definition _on_editbox_changed (self : t) : outcome t :=
  match editbox self with
  | None => Failed self AttributeError
  | Some e =>
      match float64_of_str (text e) with
      | None => _bad_editbox_input self
      | Some x =>
          let value := B64.Float x in
          if negb (B64.le (_low self) value && B64.le value (_high self))
          then _bad_editbox_input self
          else
            match set_val self (Some value) with
            | Failed s err => Failed s err
            | Done self1 =>
                match _good_editbox_input self1 with
                | Failed s err => Failed s err
                | Done self2 => call_callback self2 (Some value)
                end
            end
      end
  end.

(** The default value of [__init__]: [(high - low) / 2.] *)
Definition default_value (low high : B64.num) (value : B64.value)
  : result B64.value :=
  match value with
  | None =>
      d <- B64.sub high low ;;
      r <- B64.truediv d (B64.Float (Finite 2)) ;;
      Ok (Some r)
  | Some _ => Ok value
  end.

(** The object [__init__] has built when it reaches [self.val = value]
    (lines 88 to 125). *)
Definition init_fields (name0 : string) (cb : bool) (low high : B64.num)
    (value_type0 orientation : string) : result t :=
  vert <- (if String.eqb orientation "vertical" then Ok true
           else if String.eqb orientation "horizontal" then Ok false
           else Raise ValueError) ;;
  p <- (if String.eqb value_type0 "float" then
          d <- B64.sub high low ;;
          f <- B64.float_of d ;;
          sc <- B64.truediv f (B64.Int 1000) ;;
          Ok (Some (Some sc), QSlider.setRange QSlider.new 0 1000,
              "%2.2f"%string)
        else if String.eqb value_type0 "int" then
          lo <- B64.c_int (Some low) ;;
          hi <- B64.c_int (Some high) ;;
          Ok (None, QSlider.setRange QSlider.new lo hi, "%d"%string)
        else Raise ValueError) ;;
  Ok {| name := name0; callback := cb; calls := []; vertical := vert;
        slider := snd (fst p); _scale := fst (fst p); value_fmt := snd p;
        value_type := value_type0; _low := low; _high := high;
        on_move := false; on_release := false; editbox := None |}.

(** [__init__(name, low, high, value, value_type, ptype, callback, ...,
    orientation, update_on)]; [cb] says whether [callback] is a callable.
    An exception leaves no object. *)
Definition init (name0 : string) (cb : bool) (low high : B64.num)
    (value : B64.value) (value_type0 orientation update_on : string)
  : result t :=
  value1 <- default_value low high value ;;
  self0 <- init_fields name0 cb low high value_type0 orientation ;;
  match set_val self0 value1 with
  | Failed _ e => Raise e
  | Done self1 =>
      self2 <- (if String.eqb update_on "move"
                then Ok (with_connection self1 true false)
                else if String.eqb update_on "release"
                then Ok (with_connection self1 false true)
                else Raise ValueError) ;;
      shown <- val self2 ;;
      Ok (with_editbox self2
            (Some {| text := format64 (value_fmt self2) shown;
                     styleSheet := EmptyString |}))
  end.

(** The text the user has typed into the edit box. *)
Definition typed (s : t) (txt : string) : t :=
  match editbox s with
  | Some e => with_editbox s (Some (setText e txt))
  | None => s
  end.

(** The clamp of the control, written out. *)
Definition clamp (s : t) (z : Z) : Z :=
  Z.max (QSlider.minimum (slider s)) (Z.min (QSlider.maximum (slider s)) z).

(** What no method changes once [__init__] is done. *)
Definition frame (s : t)
  : string * bool * option B64.value * string * string * B64.num * B64.num
    * (bool * bool) * (Z * Z) :=
  (name s, callback s, _scale s, value_fmt s, value_type s, _low s, _high s,
   (on_move s, on_release s),
   (QSlider.minimum (slider s), QSlider.maximum (slider s))).

(** The state of a slider whose [__init__] has returned: the edit box
    exists; a float slider has a [_scale] that is a float and not zero, a
    lower bound that converts to a float, and a control of 1000 steps; an
    int slider has the range of its bounds. *)
Record constructed (s : t) : Prop := {
  c_editbox : editbox s <> None;
  c_type : value_type s = "float"%string \/ value_type s = "int"%string;
  c_float :
    value_type s = "float"%string ->
    exists sc lf : pyfloat,
      _scale s = Some (Some (B64.Float sc))
      /\ B64.fis_zero sc = false
      /\ B64.to_float (_low s) = Ok lf
      /\ QSlider.minimum (slider s) = 0
      /\ QSlider.maximum (slider s) = 1000;
  c_int :
    value_type s = "int"%string ->
    exists lo hi : Z,
      B64.c_int (Some (_low s)) = Ok lo
      /\ B64.c_int (Some (_high s)) = Ok hi
      /\ QSlider.minimum (slider s) = lo
      /\ QSlider.maximum (slider s) = Z.max lo hi
}.

End WithText.

End Slider64.

(** The decimal instance for binary64: [float(s)] is the float nearest to
    the decimal number read. *)
Module DecimalText64.

Definition parse (s : string) : option pyfloat :=
  match DecimalText.parse_float s with
  | Some (Finite q) => Some (B64.fl q)
  | r => r
  end.

Definition float_text (x : pyfloat) : string :=
  match x with
  | Finite q => DecimalText.float_str q
  | Inf true => "-inf"
  | Inf false => "inf"
  | NaN => "nan"
  end.

Definition str (v : B64.value) : string :=
  match v with
  | None => "None"
  | Some (B64.Int z) => DecimalText.Z_str z
  | Some (B64.Float x) => float_text x
  end.

Definition fixed_text (places : nat) (a : B64.num) : string :=
  match B64.exact a with
  | Finite q => DecimalText.fixed places q
  | x => float_text x
  end.

Definition format (spec : string) (v : B64.value) : string :=
  match v with
  | None => "None"
  | Some a =>
      if String.eqb spec "%d" then
        match B64.int_of a with
        | Ok z => DecimalText.Z_str z
        | Raise _ => spec
        end
      else if String.eqb spec "%2.2f" then fixed_text 2 a
      else if String.eqb spec "{0:.4f}" then fixed_text 4 a
      else spec
  end.

Definition text64 : Text64 :=
  {| float64_of_str := parse; str64 := str; format64 := format |}.

End DecimalText64.

(** ** Concrete sliders, with floats *)

Module Examples64.

(** [Slider('x', 0.0, 1.0, callback=f)] as [__init__] leaves it. *)
Definition unit64 : Slider64.t :=
  {| Slider64.name := "x"; Slider64.callback := true; Slider64.calls := [];
     Slider64.vertical := false;
     Slider64.slider :=
       {| QSlider.minimum := 0; QSlider.maximum := 1000;
          QSlider.value := 500 |};
     Slider64._scale := Some (Some (B64.Float (B64.fl (1 # 1000))));
     Slider64.value_fmt := "%2.2f"; Slider64.value_type := "float";
     Slider64._low := B64.Float (Finite 0);
     Slider64._high := B64.Float (Finite 1);
     Slider64.on_move := false; Slider64.on_release := true;
     Slider64.editbox := Some {| text := "0.50"; styleSheet := EmptyString |} |}.


(** [Slider('n', 2, 10, value=4, value_type='int', update_on='move',
    callback=f)] *)
Definition int64 : Slider64.t :=
  {| Slider64.name := "n"; Slider64.callback := true; Slider64.calls := [];
     Slider64.vertical := false;
     Slider64.slider :=
       {| QSlider.minimum := 2; QSlider.maximum := 10; QSlider.value := 4 |};
     Slider64._scale := None;
     Slider64.value_fmt := "%d"; Slider64.value_type := "int";
     Slider64._low := B64.Int 2;
     Slider64._high := B64.Int 10;
     Slider64.on_move := true; Slider64.on_release := false;
     Slider64.editbox := Some {| text := "4"; styleSheet := EmptyString |} |}.

End Examples64.

(** ** Concrete sliders *)

Module Examples.

(** [Slider('x')]: a float slider on [0, 1], as [__init__] leaves it. *)
Definition unit_slider : Slider.t :=
  {| Slider.name := "x"; Slider.calls := []; Slider.vertical := false;
     Slider.slider :=
       {| QSlider.minimum := 0; QSlider.maximum := 1000;
          QSlider.value := 500 |};
     Slider._scale := Some (Some (PyFloat (1 # 1000)));
     Slider.value_fmt := "%2.2f"; Slider.value_type := "float";
     Slider._low := PyFloat 0; Slider._high := PyFloat 1;
     Slider.on_move := false; Slider.on_release := true;
     Slider.editbox := Some {| text := "0.50"; styleSheet := EmptyString |} |}.

(** [Slider('n', 2, 10, value=4, value_type='int', update_on='move')] *)
Definition int_slider : Slider.t :=
  {| Slider.name := "n"; Slider.calls := []; Slider.vertical := false;
     Slider.slider :=
       {| QSlider.minimum := 2; QSlider.maximum := 10; QSlider.value := 4 |};
     Slider._scale := None;
     Slider.value_fmt := "%d"; Slider.value_type := "int";
     Slider._low := PyInt 2; Slider._high := PyInt 10;
     Slider.on_move := true; Slider.on_release := false;
     Slider.editbox := Some {| text := "4"; styleSheet := EmptyString |} |}.

End Examples.

(** * Properties *)

(** ** Arithmetic facts *)

Lemma is_zero_float (q : Q) : is_zero (PyFloat q) = false <-> ~ q == 0.
Proof.
  simpl. split.
  - intros H E. apply Qeq_bool_iff in E. congruence.
  - intros H. destruct (Qeq_bool q 0) eqn:E; [|reflexivity].
    apply Qeq_bool_iff in E. contradiction.
Qed.



(** ** VideoTimer *)

Section VideoTimerFacts.
Import VideoTimer.

Lemma next_running (c : t) (s l : Z) (t0 i now : Q) :
  running c s l t0 i -> l <> 0 ->
  next c now = Ok (Some (PyInt ((Qfloor ((now - t0) / i) + s) mod l))).
Proof.
  intros [_ Hs Hl Ht Hi Hnz] Hl0. unfold next.
  rewrite Ht, Hi, Hs, Hl. cbn [getattr bind py_sub operands fst snd num_sub].
  unfold py_floordiv. cbn [operands bind fst snd]. unfold num_floordiv.
  apply is_zero_float in Hnz. rewrite Hnz.
  cbn [bind py_int_val py_int num_Q py_add operands fst snd num_add].
  assert (T : forall z, Qtrunc (inject_Z z) = z).
  { intros z. unfold Qtrunc. rewrite !Qfloor_Z.
    destruct (Qle_bool 0 (inject_Z z)); [reflexivity|].
    unfold Qceiling. change (- inject_Z z)%Q with (inject_Z (- z)).
    rewrite Qfloor_Z. lia. }
  rewrite T. unfold py_mod. cbn [operands bind fst snd]. unfold num_mod.
  assert (Z0 : is_zero (PyInt l) = false) by (simpl; apply Z.eqb_neq; exact Hl0).
  rewrite Z0. reflexivity.
Qed.

Lemma set_fps_ok (c : t) (v : pynum) :
  is_zero v = false ->
  set_fps c (Some v)
  = Ok {| base := {| interval_ms := Qtrunc (1 / num_Q v * 1000);
                     active := active (base c) |};
          index := index c; _len := _len c;
          start_index := start_index c; start_time := start_time c;
          _interval := Some (Some (PyFloat (1 / num_Q v))) |}.
Proof.
  intros Hz. unfold set_fps, py_truediv. cbn [operands bind fst snd].
  unfold num_truediv. rewrite Hz. reflexivity.
Qed.

Lemma set_fps_zero (c : t) (v : pynum) :
  is_zero v = true -> set_fps c (Some v) = Raise ZeroDivisionError.
Proof.
  intros Hz. unfold set_fps, py_truediv. cbn [operands bind fst snd].
  unfold num_truediv. rewrite Hz. reflexivity.
Qed.

Lemma idle_start_time (c : t) :
  idle c -> start_time c = None \/ start_time c = Some PyNone.
Proof.
  induction 1 as [|c v c' _ IH E|c].
  - left. reflexivity.
  - destruct v as [v|]; [|discriminate E].
    destruct (is_zero v) eqn:Hz.
    + rewrite set_fps_zero in E by exact Hz. discriminate E.
    + rewrite set_fps_ok in E by exact Hz. injection E as <-. exact IH.
  - right. reflexivity.
Qed.

Lemma unconfigured_interval (c : t) : unconfigured c -> _interval c = None.
Proof.
  induction 1 as [|c idx length now c' _ IH E|c _ IH].
  - reflexivity.
  - injection E as <-. exact IH.
  - exact IH.
Qed.

(** C7 (as the code has it): on an idle clock [next] emits nothing, and it
    is not a silent no-op: it raises [AttributeError] before the first
    [start] and [TypeError] after a [stop]. *)
Theorem next_idle_raises (c : t) (now : Q) :
  idle c ->
  (start_time c = None /\ next c now = Raise AttributeError)
  \/ (start_time c = Some PyNone /\ next c now = Raise TypeError).
Proof.
  intros H. destruct (idle_start_time c H) as [E|E]; [left|right];
    (split; [exact E|]); unfold next; rewrite E; reflexivity.
Qed.

Lemma next_idle_raises_witness :
  (start_time init = None /\ next init 7 = Raise AttributeError)
  \/ (start_time init = Some PyNone /\ next init 7 = Raise TypeError).
Proof.
  apply (next_idle_raises init 7). apply idle_init.
Defined.

(** C7, counterexample: a tick after [stop] raises. *)
Lemma next_after_stop_raises :
  idle (stop init) /\ raises (next (stop init) 0).
Proof.
  split; [apply idle_stop|]. exists TypeError. reflexivity.
Qed.

(** C8 (as the code has it): [start] validates nothing; for every length it
    records the index, the length and the time and starts the timer. *)
Theorem start_records (c : t) (idx length : pyval) (now : Q) :
  exists c' : t,
    start c idx length now = Ok c'
    /\ start_index c' = Some idx
    /\ _len c' = Some length
    /\ start_time c' = Some (Some (PyFloat now))
    /\ active (base c') = true
    /\ _interval c' = _interval c.
Proof.
  eexists. split; [reflexivity|]. repeat split.
Qed.

(** C8, counterexample: [start(3, 0)] and [start(3, -1)] are accepted and
    change the clock. *)
Lemma start_accepts_nonpositive_length :
  (exists c' : t,
      start init (Some (PyInt 3)) (Some (PyInt 0)) 5 = Ok c'
      /\ _len c' = Some (Some (PyInt 0)) /\ c' <> init)
  /\ (exists c' : t,
         start init (Some (PyInt 3)) (Some (PyInt (-1))) 5 = Ok c'
         /\ _len c' = Some (Some (PyInt (-1))) /\ c' <> init).
Proof.
  split; eexists; (split; [reflexivity|]); (split; [reflexivity|]);
    intros E; discriminate E.
Qed.

(** C10: while [fps] was never assigned, [_interval] does not exist:
    reading [fps] raises [AttributeError], and so does a tick after
    [start]. *)
Theorem unconfigured_clock_fails (c : t) :
  unconfigured c ->
  _interval c = None
  /\ fps c = Raise AttributeError
  /\ forall (idx length : pyval) (t0 now : Q) (c' : t),
      start c idx length t0 = Ok c' -> next c' now = Raise AttributeError.
Proof.
  intros U. pose proof (unconfigured_interval c U) as E.
  split; [exact E|]. split.
  - unfold fps. rewrite E. reflexivity.
  - intros idx length t0 now c' S. injection S as <-.
    unfold next. cbn. rewrite E. reflexivity.
Qed.

Lemma unconfigured_clock_fails_witness :
  _interval init = None
  /\ fps init = Raise AttributeError
  /\ forall (idx length : pyval) (t0 now : Q) (c' : t),
      start init idx length t0 = Ok c' -> next c' now = Raise AttributeError.
Proof.
  apply (unconfigured_clock_fails init). apply unconfigured_init.
Defined.

End VideoTimerFacts.

(** ** Slider *)

Local Open Scope Q_scope.

Lemma num_Q_sub (a b : pynum) : num_Q (num_sub a b) == num_Q a - num_Q b.
Proof.
  destruct a, b; simpl; try reflexivity.
  unfold Qeq, Qminus, Qplus, Qopp, inject_Z. simpl. lia.
Qed.

Lemma Qtrunc_Z (z : Z) : Qtrunc (inject_Z z) = z.
Proof.
  unfold Qtrunc. rewrite !Qfloor_Z.
  destruct (Qle_bool 0 (inject_Z z)); [reflexivity|].
  unfold Qceiling. change (- inject_Z z)%Q with (inject_Z (- z)).
  rewrite Qfloor_Z. lia.
Qed.



Lemma Qceiling_neg (q : Q) : q < 0 -> (Qceiling q <= 0)%Z.
Proof.
  intros H. unfold Qceiling.
  assert (F : (0 <= Qfloor (- q))%Z).
  { change 0%Z with (Qfloor 0). apply Qfloor_resp_le. lra. }
  lia.
Qed.

Lemma Qtrunc_mono (q r : Q) : q <= r -> (Qtrunc q <= Qtrunc r)%Z.
Proof.
  intros H. unfold Qtrunc.
  destruct (Qle_bool 0 q) eqn:Eq, (Qle_bool 0 r) eqn:Er.
  - apply Qfloor_resp_le, H.
  - apply Qle_bool_iff in Eq.
    assert (0 <= r) by lra. apply Qle_bool_iff in H0. congruence.
  - assert (q < 0).
    { apply Qnot_le_lt. intros C. apply Qle_bool_iff in C. congruence. }
    apply Qle_bool_iff in Er.
    pose proof (Qceiling_neg q H0).
    assert (0 <= Qfloor r)%Z.
    { change 0%Z with (Qfloor 0). apply Qfloor_resp_le, Er. }
    lia.
  - apply Qceiling_resp_le, H.
Qed.

Section SliderFacts.
Context {T : PyText}.
Import Slider.

Lemma ranged_scaling (s s' : t) :
  scaling s' = scaling s -> ranged s -> ranged s'.
Proof.
  unfold scaling. intros E [Ht Hf Hi].
  injection E as Et Es El Eh Emin Emax.
  constructor.
  - rewrite Et. exact Ht.
  - rewrite Et, Es, El, Eh, Emin, Emax. exact Hf.
  - rewrite Et, El, Eh, Emin, Emax. exact Hi.
Qed.

Lemma val_float (s : t) (sc : Q) :
  value_type s = "float"%string -> _scale s = Some (Some (PyFloat sc)) ->
  val s = Ok (Some (PyFloat (inject_Z (QSlider.value (slider s)) * sc
                             + num_Q (_low s)))).
Proof.
  intros Ht Hs. unfold val. rewrite Ht, Hs. reflexivity.
Qed.

Lemma val_int (s : t) :
  value_type s = "int"%string ->
  val s = Ok (Some (PyInt (QSlider.value (slider s)))).
Proof.
  intros Ht. unfold val. rewrite Ht. reflexivity.
Qed.

Lemma val_ok (s : t) : ranged s -> exists v : pynum, val s = Ok (Some v).
Proof.
  intros [[Ht|Ht] Hf _].
  - destruct (Hf Ht) as (sc & Hs & _). eexists. apply (val_float s sc Ht Hs).
  - eexists. apply (val_int s Ht).
Qed.

Lemma val_scaling (s s' : t) :
  scaling s' = scaling s ->
  QSlider.value (slider s') = QSlider.value (slider s) ->
  val s' = val s.
Proof.
  unfold scaling. intros E Ev.
  injection E as Et Es El Eh Emin Emax.
  unfold val. rewrite Et, Es, El, Ev. reflexivity.
Qed.

(** [self.slider.setValue(x)]: it cannot raise once the edit box exists or
    while [valueChanged] is not connected. *)
Lemma slider_setValue_ok (s : t) (x : pynum) :
  ranged s -> (on_move s = true -> editbox s <> None) ->
  exists s' : t,
    slider_setValue s (Some x) = Ok s'
    /\ scaling s' = scaling s
    /\ (name s', on_move s', on_release s') = (name s, on_move s, on_release s)
    /\ QSlider.value (slider s') = QSlider.bound (slider s) (py_int x)
    /\ (editbox s <> None -> editbox s' <> None)
    /\ (on_move s = false -> calls s' = calls s /\ editbox s' = editbox s)
    /\ (QSlider.bound (slider s) (py_int x) = QSlider.value (slider s) ->
        calls s' = calls s /\ editbox s' = editbox s).
Proof.
  intros R Hbox. unfold slider_setValue. cbn [qt_int bind].
  set (s1 := with_slider s (QSlider.setValue (slider s) (py_int x))).
  assert (R1 : ranged s1) by (apply (ranged_scaling s s1); [reflexivity|exact R]).
  destruct (negb (QSlider.value (QSlider.setValue (slider s) (py_int x))
                  =? QSlider.value (slider s))%Z && on_move s) eqn:Hc.
  - destruct (val_ok s1 R1) as (v & Hv).
    apply andb_true_iff in Hc. destruct Hc as [Hn Hm].
    unfold _on_slider_changed. rewrite Hv. cbn [bind].
    unfold on_editbox. destruct (editbox s1) as [e|] eqn:He.
    + cbn [bind]. eexists. split; [reflexivity|].
      split; [reflexivity|]. split; [reflexivity|]. split; [reflexivity|].
      split; [discriminate|]. split.
      * intros Hm'. congruence.
      * intros Hb. apply negb_true_iff, Z.eqb_neq in Hn.
        exfalso. apply Hn. exact Hb.
    + exfalso. apply (Hbox Hm). exact He.
  - exists s1. split; [reflexivity|]. split; [reflexivity|].
    split; [reflexivity|]. split; [reflexivity|].
    split; [intros H; exact H|].
    split; intros _; split; reflexivity.
Qed.

(** [self.val = x]: under the same condition it cannot raise, it moves the
    control to [control s x] clamped to the range, and changes nothing of
    the scaling. *)
Lemma set_val_ok (s : t) (x : pynum) :
  ranged s -> (on_move s = true -> editbox s <> None) ->
  exists s' : t,
    set_val s (Some x) = Ok s'
    /\ scaling s' = scaling s
    /\ (name s', on_move s', on_release s') = (name s, on_move s, on_release s)
    /\ QSlider.value (slider s') = QSlider.bound (slider s) (control s x)
    /\ (editbox s <> None -> editbox s' <> None)
    /\ (on_move s = false -> calls s' = calls s).
Proof.
  intros R Hbox. unfold set_val, control.
  destruct (r_type s R) as [Ht|Ht]; rewrite Ht.
  - destruct (r_float s R Ht) as (sc & Hs & _ & Hnz & _).
    rewrite Hs.
    cbn [String.eqb Ascii.eqb Bool.eqb py_sub operands bind fst snd getattr].
    unfold py_truediv. cbn [operands bind fst snd]. unfold num_truediv.
    apply is_zero_float in Hnz. rewrite Hnz. cbn [bind fst snd num_Q].
    destruct (slider_setValue_ok s
                (PyFloat (num_Q (num_sub x (_low s)) / sc)) R Hbox)
      as (s1 & E1 & Hc & Hn & Hv & He & Hm & _).
    rewrite E1. cbn [bind]. destruct (editbox s1) as [e|] eqn:Hb.
    + eexists. split; [reflexivity|]. split; [exact Hc|].
      split; [exact Hn|]. split; [exact Hv|]. split; [discriminate|].
      intros M. apply (Hm M).
    + exists s1. split; [reflexivity|]. split; [exact Hc|].
      split; [exact Hn|]. split; [exact Hv|]. split.
      * intros H. exfalso. apply (He H). reflexivity.
      * intros M. apply (Hm M).
  - cbn [String.eqb Ascii.eqb Bool.eqb bind fst snd].
    destruct (slider_setValue_ok s x R Hbox)
      as (s1 & E1 & Hc & Hn & Hv & He & Hm & _).
    rewrite E1. cbn [bind]. destruct (editbox s1) as [e|] eqn:Hb.
    + eexists. split; [reflexivity|]. split; [exact Hc|].
      split; [exact Hn|]. split; [exact Hv|]. split; [discriminate|].
      intros M. apply (Hm M).
    + exists s1. split; [reflexivity|]. split; [exact Hc|].
      split; [exact Hn|]. split; [exact Hv|]. split.
      * intros H. exfalso. apply (He H). reflexivity.
      * intros M. apply (Hm M).
Qed.


(** The object [__init__] has built when it reaches [self.val = value]. *)
Lemma init_ranged (name0 : string) (low high : pynum) (vt : string)
    (vert : bool) :
  (vt = "float"%string -> ~ num_Q high == num_Q low) ->
  valid_value_type vt = true ->
  exists (sc : attr) (sl : QSlider.t) (fmt : string),
    (if String.eqb vt "float" then
       sc0 <- py_truediv (Some (py_float_of_num (num_sub high low)))
                         (Some (PyInt 1000)) ;;
       Ok (Some sc0, QSlider.setRange QSlider.new 0 1000, "%2.2f"%string)
     else if String.eqb vt "int" then
       lo <- qt_int (Some low) ;;
       hi <- qt_int (Some high) ;;
       Ok (None, QSlider.setRange QSlider.new lo hi, "%d"%string)
     else Raise ValueError) = Ok (sc, sl, fmt)
    /\ ranged {| name := name0; calls := []; vertical := vert;
                 slider := sl; _scale := sc; value_fmt := fmt;
                 value_type := vt; _low := low; _high := high;
                 on_move := false; on_release := false; editbox := None |}.
Proof.
  intros Hne Hvt. unfold valid_value_type in Hvt.
  destruct (String.eqb vt "float") eqn:Ef.
  - apply String.eqb_eq in Ef. subst vt.
    eexists _, _, _. split; [reflexivity|].
    constructor; cbn [value_type _scale _low _high slider].
    + left. reflexivity.
    + intros _. eexists. split; [reflexivity|]. split.
      * cbn [num_Q py_float_of_num fst snd]. rewrite num_Q_sub. reflexivity.
      * split; [|split; reflexivity].
        cbn [num_Q py_float_of_num fst snd]. rewrite num_Q_sub.
        intros E. apply (Hne eq_refl).
        assert (E' : num_Q high - num_Q low == 0).
        { setoid_replace (num_Q high - num_Q low)
            with ((num_Q high - num_Q low) / inject_Z 1000 * inject_Z 1000)
            by (field; discriminate).
          rewrite E. reflexivity. }
        lra.
    + intros C. discriminate C.
  - destruct (String.eqb vt "int") eqn:Ei; [|discriminate Hvt].
    apply String.eqb_eq in Ei. subst vt.
    eexists _, _, _. split; [reflexivity|].
    constructor; cbn [value_type _scale _low _high slider].
    + right. reflexivity.
    + intros C. discriminate C.
    + intros _. split; reflexivity.
Qed.

Lemma init_default_value (low high : pynum) (value : pyval) :
  exists v1 : pynum,
    match value with
    | None => py_truediv (Some (num_sub high low)) (Some (PyFloat 2))
    | Some _ => Ok value
    end = Ok (Some v1).
Proof.
  destruct value as [v|]; eexists; reflexivity.
Qed.

(** When [__init__] succeeds and when it raises [ValueError]. *)
Lemma init_outcome (name0 : string) (low high : pynum) (value : pyval)
    (vt o u : string) :
  (vt = "float"%string -> ~ num_Q high == num_Q low) ->
  if valid_orientation o && valid_value_type vt && valid_update_on u
  then exists s : t,
      init name0 low high value vt o u = Ok s
      /\ constructed s
      /\ (name s, value_type s, _low s, _high s) = (name0, vt, low, high)
      /\ calls s = []
      /\ (on_move s, on_release s)
         = (String.eqb u "move", negb (String.eqb u "move"))
  else init name0 low high value vt o u = Raise ValueError.
Proof.
  intros Hne. unfold init.
  destruct (init_default_value low high value) as (v1 & ->). cbn [bind].
  unfold valid_orientation.
  assert (Ho : (exists vert,
             (if String.eqb o "vertical" then Ok true
              else if String.eqb o "horizontal" then Ok false
              else Raise ValueError) = Ok vert
             /\ (String.eqb o "vertical" || String.eqb o "horizontal") = true)
          \/ (if String.eqb o "vertical" then Ok true
              else if String.eqb o "horizontal" then Ok false
              else @Raise bool ValueError) = Raise ValueError
             /\ (String.eqb o "vertical" || String.eqb o "horizontal") = false).
  { destruct (String.eqb o "vertical"), (String.eqb o "horizontal");
      eauto. }
  destruct Ho as [(vert & -> & ->)|(-> & ->)]; [|reflexivity].
  cbn [bind andb].
  destruct (valid_value_type vt) eqn:Hvt.
  - destruct (init_ranged name0 low high vt vert Hne Hvt)
      as (sc & sl & fmt & -> & R).
    cbn [bind fst snd andb].
    match goal with
    | |- context [set_val ?s0 _] => set (self0 := s0) in *
    end.
    destruct (set_val_ok self0 v1 R) as (s1 & -> & Hc & Hn & Hv & _ & Hm).
    { intros C. discriminate C. }
    cbn [bind]. unfold valid_update_on.
    injection Hn as Hname Hmove Hrel.
    destruct (String.eqb u "move") eqn:Em.
    + cbn [bind orb].
      assert (R2 : ranged (with_connection s1 true false))
        by (apply (ranged_scaling self0); [exact Hc|exact R]).
      destruct (val_ok _ R2) as (shown & ->). cbn [bind].
      eexists. split; [reflexivity|]. split.
      * constructor; [|discriminate].
        apply (ranged_scaling self0); [exact Hc|exact R].
      * unfold scaling in Hc. injection Hc as Ht _ El Eh _ _.
        cbn [name value_type _low _high with_editbox with_connection
             calls on_move on_release].
        rewrite Hname, Ht, El, Eh, (Hm eq_refl).
        repeat split.
    + destruct (String.eqb u "release") eqn:Er; [|reflexivity].
      cbn [bind orb].
      assert (R2 : ranged (with_connection s1 false true))
        by (apply (ranged_scaling self0); [exact Hc|exact R]).
      destruct (val_ok _ R2) as (shown & ->). cbn [bind].
      eexists. split; [reflexivity|]. split.
      * constructor; [|discriminate].
        apply (ranged_scaling self0); [exact Hc|exact R].
      * unfold scaling in Hc. injection Hc as Ht _ El Eh _ _.
        cbn [name value_type _low _high with_editbox with_connection
             calls on_move on_release].
        rewrite Hname, Ht, El, Eh, (Hm eq_refl).
        repeat split.
  - unfold valid_value_type in Hvt.
    destruct (String.eqb vt "float"); [discriminate Hvt|].
    destruct (String.eqb vt "int"); [discriminate Hvt|]. reflexivity.
Qed.

End SliderFacts.

(** ** The claims on concrete sliders *)

Section Concrete.
Import Slider Examples.
#[local] Existing Instance DecimalText.decimal_text.

Lemma unit_slider_init :
  init "x" (PyFloat 0) (PyFloat 1) None "float" "horizontal" "release"
  = Ok unit_slider.
Proof. vm_compute. reflexivity. Qed.

Lemma int_slider_init :
  init "n" (PyInt 2) (PyInt 10) (Some (PyInt 4)) "int" "horizontal" "move"
  = Ok int_slider.
Proof. vm_compute. reflexivity. Qed.

Lemma unit_slider_constructed : constructed unit_slider.
Proof.
  constructor; [constructor|discriminate].
  - left. reflexivity.
  - intros _. exists (1 # 1000). split; [reflexivity|].
    split; [reflexivity|]. split; [discriminate|]. split; reflexivity.
  - intros C. discriminate C.
Qed.



(** C5: [Slider('x', low=2, high=10)] starts at 4, half the span
    [(high - low) / 2], and not at the midpoint 6 its docstring names. *)
Theorem init_default_is_half_span :
  exists (s : t) (g : Q),
    init "x" (PyFloat 2) (PyFloat 10) None "float" "horizontal" "release"
    = Ok s
    /\ QSlider.value (slider s) = 250%Z
    /\ val s = Ok (Some (PyFloat g))
    /\ g == (10 - 2) / 2
    /\ ~ g == (2 + 10) / 2.
Proof.
  eexists. eexists. split; [vm_compute; reflexivity|].
  split; [reflexivity|]. split; [vm_compute; reflexivity|].
  split; [reflexivity|]. intros E. discriminate E.
Qed.

(** An accepted edit: "0.25" moves the unit slider to step 250 and calls
    the callback once. *)
Example edit_accepted :
  exists s' : t,
    _on_editbox_changed (typed unit_slider " 0.25") = Ok s'
    /\ QSlider.value (slider s') = 250%Z
    /\ calls s' = [("x"%string, Some (PyFloat (25 # 100)))]
    /\ editbox s' = Some {| text := "250.0000"; styleSheet := good_style |}.
Proof.
  eexists. split; [vm_compute; reflexivity|]. repeat split.
Qed.

(** With [update_on='move'] the assignment inside [_on_editbox_changed]
    moves the control, [valueChanged] runs [_on_slider_changed], and the
    callback is called twice: with the value read back, then with the value
    typed. *)
Example edit_accepted_on_move :
  exists s' : t,
    _on_editbox_changed (typed int_slider "7") = Ok s'
    /\ QSlider.value (slider s') = 7%Z
    /\ calls s' = [("n"%string, Some (PyInt 7));
                   ("n"%string, Some (PyFloat 7))].
Proof.
  eexists. split; [vm_compute; reflexivity|]. repeat split.
Qed.

(** Rejected edits: out of range, not a number, infinite. *)
Example edit_rejected :
  forall txt : string,
    In txt ["1.5"; "-0.1"; "abc"; EmptyString; "inf"; "nan"; "1e"]%string ->
    _on_editbox_changed (typed unit_slider txt)
    = Ok (with_editbox unit_slider
            (Some {| text := txt; styleSheet := bad_style |})).
Proof.
  intros txt H. simpl in H.
  repeat (destruct H as [<-|H]; [vm_compute; reflexivity|]).
  contradiction.
Qed.

End Concrete.

(** * Further properties *)

(** ** VideoTimer: how ticks follow one another *)

Section VideoTimerTicks.
Import VideoTimer.





(** X6: a tick at the very time of [start] emits the start index (modulo
    the length), whatever the clock did before: [start] on a clock that is
    running restarts it. *)
Theorem next_at_start (c c' : t) (s l : Z) (t0 i : Q) :
  _interval c = Some (Some (PyFloat i)) -> ~ i == 0 -> (l <> 0)%Z ->
  start c (Some (PyInt s)) (Some (PyInt l)) t0 = Ok c' ->
  next c' t0 = Ok (Some (PyInt (s mod l))).
Proof.
  intros Hi Hnz Hl E. injection E as <-.
  rewrite (next_running _ s l t0 i t0); [|constructor; auto|exact Hl].
  assert (E : (t0 - t0) / i == inject_Z 0) by (field; exact Hnz).
  rewrite E, Qfloor_Z. reflexivity.
Qed.

Lemma next_at_start_witness :
  next {| base := {| interval_ms := 40; active := true |};
          index := Some PyNone; _len := Some (Some (PyInt 10));
          start_index := Some (Some (PyInt 13));
          start_time := Some (Some (PyFloat 100));
          _interval := Some (Some (PyFloat (1 # 25))) |} 100
  = Ok (Some (PyInt 3)).
Proof.
  apply (next_at_start
           {| base := {| interval_ms := 40; active := false |};
              index := Some PyNone; _len := Some PyNone;
              start_index := Some PyNone; start_time := Some PyNone;
              _interval := Some (Some (PyFloat (1 # 25))) |}
           _ 13 10 100 (1 # 25)).
  - reflexivity.
  - intros E. discriminate E.
  - lia.
  - reflexivity.
Defined.



End VideoTimerTicks.

(** ** Slider: what the methods keep *)

Lemma bound_between (q : QSlider.t) (v : Z) :
  (QSlider.minimum q <= QSlider.maximum q)%Z ->
  (QSlider.minimum q <= QSlider.bound q v <= QSlider.maximum q)%Z.
Proof.
  unfold QSlider.bound. lia.
Qed.

Lemma QSlider_eq (q r : QSlider.t) :
  QSlider.minimum q = QSlider.minimum r ->
  QSlider.maximum q = QSlider.maximum r ->
  QSlider.value q = QSlider.value r -> q = r.
Proof.
  destruct q, r. simpl. intros -> -> ->. reflexivity.
Qed.

Section SliderMore.
Context {T : PyText}.
Import Slider.

Lemma ranged_min_max (s : t) :
  ranged s -> (QSlider.minimum (slider s) <= QSlider.maximum (slider s))%Z.
Proof.
  intros R. destruct (r_type s R) as [Ht|Ht].
  - destruct (r_float s R Ht) as (_ & _ & _ & _ & -> & ->). lia.
  - destruct (r_int s R Ht) as (-> & ->). lia.
Qed.

Lemma control_arg_int (s : t) (x : pynum) :
  ranged s -> control s x = py_int (control_arg s x).
Proof.
  intros R. unfold control, control_arg.
  destruct (r_type s R) as [Ht|Ht].
  - destruct (r_float s R Ht) as (sc & Hs & _). rewrite Ht, Hs. reflexivity.
  - rewrite Ht. reflexivity.
Qed.

(** The [val] setter, once the scale is known to be a non-zero float. *)
Lemma set_val_unfold (s : t) (x : pynum) :
  ranged s ->
  set_val s (Some x)
  = (s1 <- slider_setValue s (Some (control_arg s x)) ;;
     match editbox s1 with
     | Some e => Ok (with_editbox s1 (Some (setText e (control_text s x))))
     | None => Ok s1
     end).
Proof.
  intros R. unfold set_val, control_text, control_arg.
  destruct (r_type s R) as [Ht|Ht]; rewrite Ht.
  - destruct (r_float s R Ht) as (sc & Hs & _ & Hnz & _). rewrite Hs.
    cbn [String.eqb Ascii.eqb Bool.eqb py_sub operands bind fst snd getattr].
    unfold py_truediv. cbn [operands bind fst snd]. unfold num_truediv.
    apply is_zero_float in Hnz. rewrite Hnz. reflexivity.
  - reflexivity.
Qed.

Lemma on_slider_changed_ok (s : t) (e : QLineEdit) :
  ranged s -> editbox s = Some e ->
  exists v : pynum,
    val s = Ok (Some v)
    /\ _on_slider_changed s
       = Ok (with_call
               (with_editbox s (Some (setText e (str_of (Some v)))))
               (Some v)).
Proof.
  intros R He. destruct (val_ok s R) as (v & Hv). exists v.
  split; [exact Hv|]. unfold _on_slider_changed, on_editbox.
  rewrite Hv, He. reflexivity.
Qed.

(** [self.slider.setValue(x)], case by case: nothing but the position
    changes unless the position moves while [valueChanged] is connected;
    then [_on_slider_changed] runs on the moved slider. *)
Lemma slider_setValue_cases (s : t) (x : pynum) :
  slider_setValue s (Some x)
  = if negb (QSlider.bound (slider s) (py_int x)
             =? QSlider.value (slider s))%Z && on_move s
    then _on_slider_changed
           (with_slider s (QSlider.setValue (slider s) (py_int x)))
    else Ok (with_slider s (QSlider.setValue (slider s) (py_int x))).
Proof. reflexivity. Qed.

(** What an assignment leaves of the position and of the scaling. *)
Lemma set_val_position (s s' : t) (x : pynum) :
  ranged s -> set_val s (Some x) = Ok s' ->
  scaling s' = scaling s
  /\ name s' = name s
  /\ QSlider.value (slider s') = QSlider.bound (slider s) (control s x)
  /\ (editbox s <> None -> editbox s' <> None).
Proof.
  intros R E. rewrite (set_val_unfold s x R) in E.
  rewrite (control_arg_int s x R).
  rewrite slider_setValue_cases in E.
  set (s1 := with_slider s
               (QSlider.setValue (slider s) (py_int (control_arg s x)))) in *.
  destruct (negb _ && on_move s).
  - unfold _on_slider_changed in E.
    destruct (val s1) as [v|]; [|discriminate E]. cbn [bind] in E.
    unfold on_editbox in E.
    destruct (editbox s1) as [e|]; [|discriminate E]. cbn [bind] in E.
    cbn [editbox with_call with_editbox] in E. injection E as <-.
    repeat split. discriminate.
  - cbn [bind] in E. destruct (editbox s1) as [e|] eqn:He.
    + injection E as <-. repeat split. discriminate.
    + injection E as <-. repeat split. intros H. exact H.
Qed.

Lemma sound_set_val (s s' : t) (x : pynum) :
  sound s -> set_val s (Some x) = Ok s' -> sound s'.
Proof.
  intros [[R Hb] _] E.
  destruct (set_val_position s s' x R E) as (Hc & _ & Hv & He).
  split.
  - constructor; [apply (ranged_scaling s s' Hc R)|apply (He Hb)].
  - pose proof (bound_between (slider s) (control s x) (ranged_min_max s R)).
    unfold scaling in Hc. injection Hc as _ _ _ _ Emin Emax.
    unfold inside. rewrite Emin, Emax, Hv. exact H.
Qed.

Lemma sound_on_slider_changed (s s' : t) :
  sound s -> _on_slider_changed s = Ok s' -> sound s'.
Proof.
  intros [[R Hb] Hin] E.
  destruct (editbox s) as [e|] eqn:He; [|contradiction].
  destruct (on_slider_changed_ok s e R He) as (v & _ & E').
  rewrite E' in E. injection E as <-. split.
  - constructor; [apply (ranged_scaling s); [reflexivity|exact R]|].
    discriminate.
  - exact Hin.
Qed.

Lemma sound_on_editbox_changed (s s' : t) :
  sound s -> _on_editbox_changed s = Ok s' -> sound s'.
Proof.
  intros S E. pose proof S as [[R Hb] Hin].
  unfold _on_editbox_changed in E.
  destruct (editbox s) as [e|] eqn:He; [|contradiction].
  assert (Bad : forall r, _bad_editbox_input s = Ok r -> sound r).
  { intros r Er. unfold _bad_editbox_input, on_editbox in Er.
    rewrite He in Er. injection Er as <-. split; [|exact Hin].
    constructor; [apply (ranged_scaling s); [reflexivity|exact R]|].
    discriminate. }
  destruct (float_of_str (text e)) as [x|]; [|apply (Bad _ E)].
  destruct (negb _); [apply (Bad _ E)|].
  destruct x as [q| |]; try apply (Bad _ E).
  destruct (set_val s (Some (PyFloat q))) as [s1|] eqn:E1; [|discriminate E].
  cbn [bind] in E. pose proof (sound_set_val s s1 _ S E1) as [[R1 Hb1] Hin1].
  unfold _good_editbox_input, on_editbox in E.
  destruct (editbox s1) as [e1|]; [|contradiction].
  cbn [bind] in E. injection E as <-. split; [|exact Hin1].
  constructor; [apply (ranged_scaling s1); [reflexivity|exact R1]|].
  discriminate.
Qed.

(** X9: the invariant of the widget: a slider that is constructed and has
    its position in range stays so under an assignment to [val], under
    [_on_slider_changed] and under [_on_editbox_changed]. *)
Theorem methods_keep_sound (s : t) :
  sound s ->
  (forall (x : pynum) (s' : t), set_val s (Some x) = Ok s' -> sound s')
  /\ (forall s' : t, _on_slider_changed s = Ok s' -> sound s')
  /\ (forall s' : t, _on_editbox_changed s = Ok s' -> sound s').
Proof.
  intros S. split; [|split].
  - intros x s'. apply sound_set_val, S.
  - intros s'. apply sound_on_slider_changed, S.
  - intros s'. apply sound_on_editbox_changed, S.
Qed.

(** [__init__] step by step, for valid names: the object [self0] at the
    first assignment to [val], the slider [s1] it leaves, and the result. *)
Lemma init_steps (name0 : string) (low high : pynum) (value : pyval)
    (vt o u : string) :
  (vt = "float"%string -> ~ num_Q high == num_Q low) ->
  valid_orientation o = true -> valid_value_type vt = true ->
  valid_update_on u = true ->
  exists (self0 s1 : t) (shown : pynum),
    ranged self0
    /\ (name self0, calls self0, on_move self0, editbox self0)
       = (name0, [], false, None)
    /\ (value_type self0, _low self0, _high self0) = (vt, low, high)
    /\ slider self0
       = (if String.eqb vt "float"
          then QSlider.setRange QSlider.new 0 1000
          else QSlider.setRange QSlider.new (py_int low) (py_int high))
    /\ value_fmt self0
       = (if String.eqb vt "float" then "%2.2f" else "%d")%string
    /\ set_val self0
         (Some match value with
               | Some v => v
               | None => PyFloat (num_Q (num_sub high low) / 2)
               end) = Ok s1
    /\ value_fmt s1 = value_fmt self0
    /\ calls s1 = []
    /\ val s1 = Ok (Some shown)
    /\ init name0 low high value vt o u
       = Ok (with_editbox
               (with_connection s1 (String.eqb u "move")
                                (negb (String.eqb u "move")))
               (Some {| text := format_of (value_fmt s1) (Some shown);
                        styleSheet := EmptyString |})).
Proof.
  intros Hne Ho Hvt Hu. unfold init.
  assert (Hd : match value with
               | None =>
                   py_truediv (Some (num_sub high low)) (Some (PyFloat 2))
               | Some _ => Ok value
               end
               = Ok (Some match value with
                          | Some v => v
                          | None => PyFloat (num_Q (num_sub high low) / 2)
                          end)).
  { destruct value; reflexivity. }
  rewrite Hd. cbn [bind]. clear Hd.
  set (v1 := match value with
             | Some v => v
             | None => PyFloat (num_Q (num_sub high low) / 2)
             end).
  assert (Hor : exists vert,
             (if String.eqb o "vertical" then Ok true
              else if String.eqb o "horizontal" then Ok false
              else Raise ValueError) = Ok vert).
  { unfold valid_orientation in Ho.
    destruct (String.eqb o "vertical"); [eauto|].
    destruct (String.eqb o "horizontal"); [eauto|discriminate Ho]. }
  destruct Hor as (vert & ->). cbn [bind].
  destruct (init_ranged name0 low high vt vert Hne Hvt)
    as (sc & sl & fmt & Hp & R).
  assert (Hsl : sl = (if String.eqb vt "float"
                      then QSlider.setRange QSlider.new 0 1000
                      else QSlider.setRange QSlider.new
                             (py_int low) (py_int high))
                /\ fmt = (if String.eqb vt "float"
                          then "%2.2f" else "%d")%string).
  { unfold valid_value_type in Hvt.
    destruct (String.eqb vt "float").
    - injection Hp as _ <- <-. split; reflexivity.
    - destruct (String.eqb vt "int"); [|discriminate Hvt].
      injection Hp as _ <- <-. split; reflexivity. }
  destruct Hsl as [Hsl Hfmt].
  rewrite Hp. cbn [bind fst snd].
  match goal with
  | |- context [set_val ?s0 _] => set (self0 := s0) in *
  end.
  destruct (set_val_ok self0 v1 R) as (s1 & E1 & Hc & Hn & Hv & _ & Hm).
  { intros C. discriminate C. }
  assert (Hfmt1 : value_fmt s1 = value_fmt self0).
  { rewrite (set_val_unfold self0 v1 R) in E1.
    rewrite slider_setValue_cases in E1.
    cbn [on_move self0 andb] in E1.
    rewrite andb_false_r in E1. cbn [bind editbox with_slider] in E1.
    injection E1 as <-. reflexivity. }
  assert (R1 : ranged s1) by (apply (ranged_scaling self0 s1 Hc R)).
  destruct (val_ok s1 R1) as (shown & Hshown).
  exists self0, s1, shown.
  split; [exact R|]. split; [reflexivity|]. split; [reflexivity|].
  split; [exact Hsl|]. split; [exact Hfmt|]. split; [exact E1|].
  split; [exact Hfmt1|]. split; [apply (Hm eq_refl)|].
  split; [exact Hshown|].
  rewrite E1. cbn [bind]. unfold valid_update_on in Hu.
  destruct (String.eqb u "move") eqn:Em.
  - cbn [bind negb].
    change (val (with_connection s1 true false)) with (val s1).
    rewrite Hshown. reflexivity.
  - destruct (String.eqb u "release"); [|discriminate Hu].
    cbn [bind negb].
    change (val (with_connection s1 false true)) with (val s1).
    rewrite Hshown. reflexivity.
Qed.

(** The names are valid whenever [__init__] returns. *)
Lemma init_ok_names (name0 : string) (low high : pynum) (value : pyval)
    (vt o u : string) (s : t) :
  (vt = "float"%string -> ~ num_Q high == num_Q low) ->
  init name0 low high value vt o u = Ok s ->
  valid_orientation o = true /\ valid_value_type vt = true
  /\ valid_update_on u = true.
Proof.
  intros Hne E.
  pose proof (init_outcome name0 low high value vt o u Hne) as H.
  destruct (valid_orientation o), (valid_value_type vt), (valid_update_on u);
    cbn [andb] in H; try (rewrite H in E; discriminate E).
  repeat split.
Qed.

(** X11: a slider that [__init__] returns is sound, and [__init__] has not
    called the callback; exactly one of the two signals is connected, and
    the edit box shows the value read back, in the format of the value
    type. *)
Theorem init_sound (name0 : string) (low high : pynum) (value : pyval)
    (vt o u : string) (s : t) :
  (vt = "float"%string -> ~ num_Q high == num_Q low) ->
  init name0 low high value vt o u = Ok s ->
  sound s
  /\ calls s = []
  /\ (on_move s, on_release s)
     = (String.eqb u "move", negb (String.eqb u "move"))
  /\ exists shown : pynum,
      val s = Ok (Some shown)
      /\ editbox s
         = Some {| text := format_of
                             (if String.eqb vt "float" then "%2.2f"
                              else "%d") (Some shown);
                   styleSheet := EmptyString |}.
Proof.
  intros Hne E.
  destruct (init_ok_names _ _ _ _ _ _ _ s Hne E) as (Ho & Hvt & Hu).
  destruct (init_steps name0 low high value vt o u Hne Ho Hvt Hu)
    as (self0 & s1 & shown & R & Hst & Hcfg & Hsl & Hfmt & E1 & Hf1 & Hc1
        & Hshown & Ei).
  rewrite Ei in E. injection E as <-.
  destruct (set_val_position self0 s1 _ R E1) as (Hc & _ & Hv & _).
  pose proof (ranged_scaling self0 s1 Hc R) as R1.
  split; [split|].
  - constructor; [|discriminate].
    apply (ranged_scaling s1); [reflexivity|exact R1].
  - unfold inside. cbn [slider with_editbox with_connection].
    pose proof (bound_between (slider self0) (control self0
      match value with
      | Some v => v
      | None => PyFloat (num_Q (num_sub high low) / 2)
      end) (ranged_min_max self0 R)) as B.
    unfold scaling in Hc. injection Hc as _ _ _ _ Emin Emax.
    rewrite Emin, Emax, Hv. exact B.
  - split; [exact Hc1|]. split; [reflexivity|].
    exists shown. split; [exact Hshown|].
    cbn [editbox with_editbox]. rewrite Hf1, Hfmt. reflexivity.
Qed.

Lemma with_slider_same (s : t) (q : QSlider.t) :
  q = slider s -> with_slider s q = s.
Proof.
  intros ->. destruct s. reflexivity.
Qed.

Lemma control_scaling (s s' : t) (x : pynum) :
  scaling s' = scaling s -> control s' x = control s x.
Proof.
  unfold scaling. intros E. injection E as Et Es El _ _ _.
  unfold control. rewrite Et, Es, El. reflexivity.
Qed.

(** An assignment that does not move the control only rewrites the text. *)
Lemma set_val_still (s : t) (e : QLineEdit) (x : pynum) :
  ranged s -> editbox s = Some e ->
  QSlider.bound (slider s) (control s x) = QSlider.value (slider s) ->
  set_val s (Some x)
  = Ok (with_editbox s (Some (setText e (control_text s x)))).
Proof.
  intros R He Hb. rewrite (set_val_unfold s x R), slider_setValue_cases.
  rewrite <- (control_arg_int s x R), Hb, Z.eqb_refl. cbn [negb andb bind].
  rewrite with_slider_same.
  - rewrite He. reflexivity.
  - apply QSlider_eq; try reflexivity. exact Hb.
Qed.

(** X13: assigning the same value a second time changes neither the
    position nor the callback log: [valueChanged] is emitted only when the
    position moves. *)
Theorem set_val_twice (s s1 : t) (x : pynum) :
  constructed s -> set_val s (Some x) = Ok s1 ->
  exists s2 : t,
    set_val s1 (Some x) = Ok s2
    /\ slider s2 = slider s1 /\ calls s2 = calls s1.
Proof.
  intros [R Hb] E.
  destruct (set_val_position s s1 x R E) as (Hc & _ & Hv & He).
  pose proof (ranged_scaling s s1 Hc R) as R1.
  destruct (editbox s1) as [e1|] eqn:He1; [|exfalso; apply (He Hb eq_refl)].
  exists (with_editbox s1 (Some (setText e1 (control_text s1 x)))).
  split; [|split; reflexivity].
  apply (set_val_still s1 e1 x R1 He1).
  rewrite (control_scaling s s1 x Hc), Hv.
  unfold scaling in Hc. injection Hc as _ _ _ _ Emin Emax.
  unfold QSlider.bound. rewrite Emin, Emax. lia.
Qed.






End SliderMore.

(** ** The further properties on concrete sliders *)

Section ConcreteMore.
Import Slider Examples.
#[local] Existing Instance DecimalText.decimal_text.

Lemma unit_slider_sound : sound unit_slider.
Proof.
  split; [exact unit_slider_constructed|]. split; discriminate.
Qed.

Lemma methods_keep_sound_witness :
  (forall (x : pynum) (s' : t),
      set_val unit_slider (Some x) = Ok s' -> sound s')
  /\ (forall s' : t, _on_slider_changed unit_slider = Ok s' -> sound s')
  /\ (forall s' : t, _on_editbox_changed unit_slider = Ok s' -> sound s').
Proof.
  apply (methods_keep_sound unit_slider). exact unit_slider_sound.
Defined.

Lemma init_sound_witness :
  sound unit_slider
  /\ calls unit_slider = []
  /\ (on_move unit_slider, on_release unit_slider) = (false, true)
  /\ exists shown : pynum,
      val unit_slider = Ok (Some shown)
      /\ editbox unit_slider
         = Some {| text := format_of "%2.2f" (Some shown);
                   styleSheet := EmptyString |}.
Proof.
  apply (init_sound "x" (PyFloat 0) (PyFloat 1) None
                    "float" "horizontal" "release" unit_slider).
  - intros _ E. discriminate E.
  - exact unit_slider_init.
Defined.

Lemma set_val_twice_witness :
  exists s2 : t,
    set_val
      (with_editbox
         (with_slider unit_slider
            {| QSlider.minimum := 0; QSlider.maximum := 1000;
               QSlider.value := 250 |})
         (Some {| text := "250.0000"; styleSheet := EmptyString |}))
      (Some (PyFloat (1 # 4))) = Ok s2
    /\ QSlider.value (slider s2) = 250%Z /\ calls s2 = [].
Proof.
  destruct (set_val_twice unit_slider
              (with_editbox
                 (with_slider unit_slider
                    {| QSlider.minimum := 0; QSlider.maximum := 1000;
                       QSlider.value := 250 |})
                 (Some {| text := "250.0000"; styleSheet := EmptyString |}))
              (PyFloat (1 # 4)) unit_slider_constructed)
    as (s2 & E & Hs & Hc).
  - vm_compute. reflexivity.
  - exists s2. split; [exact E|]. split.
    + rewrite Hs. reflexivity.
    + rewrite Hc. reflexivity.
Defined.




End ConcreteMore.

(** * The arithmetic as the interpreter executes it

    The properties above take a float for the rational it stands for.  The
    properties below are about the programs as they run, on binary64
    floats ([B64], [VideoTimer64], [Slider64]). *)

(** ** Rounding *)


Lemma Qred_inject_Z (z : Z) : Qred (inject_Z z) = inject_Z z.
Proof.
  apply Qred_identity. simpl. apply Z.gcd_1_r.
Qed.

Lemma nearest_even_Z (q : Q) (n : Z) :
  q == inject_Z n -> B64.nearest_even q = n.
Proof.
  intros E. unfold B64.nearest_even. rewrite (Qfloor_comp q _ E), Qfloor_Z.
  assert (L : Qcompare (q - inject_Z n) (1 # 2) = Lt).
  { apply Qlt_alt.
    setoid_replace (q - inject_Z n) with 0 by (rewrite E; ring).
    reflexivity. }
  rewrite L. reflexivity.
Qed.

Lemma pow2_pos_exp (e : Z) : (0 <= e)%Z -> B64.pow2 e = inject_Z (2 ^ e).
Proof.
  intros H. unfold B64.pow2. apply Z.leb_le in H. rewrite H. reflexivity.
Qed.

Lemma pow2_inv (e : Z) :
  (e <= 0)%Z -> inject_Z (2 ^ (- e)) * B64.pow2 e == 1.
Proof.
  intros H. unfold B64.pow2. destruct (Z.leb 0 e) eqn:L.
  - apply Z.leb_le in L. assert (e = 0%Z) by lia. subst e. reflexivity.
  - assert (P : (0 < 2 ^ (- e))%Z) by (apply Z.pow_pos_nonneg; lia).
    unfold Qeq, Qmult, inject_Z. simpl.
    rewrite Z2Pos.id by exact P. lia.
Qed.

(** An integer below [2 ^ 53] in absolute value is a float. *)
Lemma fl_nat (p : Z) :
  (0 < p < 2 ^ 53)%Z -> B64.fl (inject_Z p) = Finite (inject_Z p).
Proof.
  intros [Hp Hlt]. unfold B64.fl. rewrite Qred_inject_Z.
  assert (Z0 : Qeq_bool (inject_Z p) 0 = false).
  { destruct (Qeq_bool (inject_Z p) 0) eqn:E; [|reflexivity].
    apply Qeq_bool_iff in E. unfold Qeq in E. simpl in E. lia. }
  rewrite Z0.
  assert (Ea : Qabs (inject_Z p) = inject_Z p).
  { unfold Qabs, inject_Z. rewrite Z.abs_eq by lia. reflexivity. }
  rewrite Ea.
  assert (Hk : B64.ilog2 (inject_Z p) = Z.log2 p).
  { unfold B64.ilog2. simpl Qnum. simpl Qden.
    change (Z.log2 1) with 0%Z. rewrite Z.sub_0_r.
    rewrite pow2_pos_exp by apply Z.log2_nonneg.
    assert (L : Qle_bool (inject_Z (2 ^ Z.log2 p)) (inject_Z p) = true).
    { apply Qle_bool_iff. rewrite <- Zle_Qle. apply Z.log2_spec. exact Hp. }
    rewrite L. reflexivity. }
  rewrite Hk.
  assert (Hl : (0 <= Z.log2 p < 53)%Z).
  { split; [apply Z.log2_nonneg|]. apply Z.log2_lt_pow2; lia. }
  set (e := Z.max (Z.log2 p - 52) (-1074)).
  assert (He : (e <= 0)%Z) by (unfold e; lia).
  rewrite (pow2_pos_exp (- e)) by lia.
  rewrite (nearest_even_Z _ (p * 2 ^ (- e))) by (rewrite inject_Z_mult; reflexivity).
  assert (Ev : Qred (inject_Z (p * 2 ^ (- e)) * B64.pow2 e) = inject_Z p).
  { rewrite <- (Qred_inject_Z p). apply Qred_complete.
    rewrite inject_Z_mult, <- Qmult_assoc, (pow2_inv e He). ring. }
  rewrite Ev.
  assert (Hov : Qle_bool (B64.pow2 1024) (inject_Z p) = false).
  { destruct (Qle_bool (B64.pow2 1024) (inject_Z p)) eqn:E; [|reflexivity].
    apply Qle_bool_iff in E. rewrite pow2_pos_exp in E by lia.
    rewrite <- Zle_Qle in E.
    assert ((2 ^ 53 < 2 ^ 1024)%Z) by (apply Z.pow_lt_mono_r; lia). lia. }
  rewrite Hov.
  assert (Hs : Qle_bool 0 (inject_Z p) = true).
  { apply Qle_bool_iff. change 0 with (inject_Z 0). rewrite <- Zle_Qle. lia. }
  rewrite Hs. reflexivity.
Qed.

Lemma fl_zero : B64.fl 0 = Finite 0.
Proof. reflexivity. Qed.

Lemma fl_int (p : Z) :
  (0 <= p < 2 ^ 53)%Z -> B64.fl (inject_Z p) = Finite (inject_Z p).
Proof.
  intros [H0 H1]. destruct (Z.eq_dec p 0) as [->|Hn]; [reflexivity|].
  apply fl_nat. lia.
Qed.

Lemma to_float_int (p : Z) :
  (0 <= p < 2 ^ 53)%Z -> B64.to_float (B64.Int p) = Ok (Finite (inject_Z p)).
Proof.
  intros H. unfold B64.to_float. rewrite (fl_int p H). reflexivity.
Qed.

(** ** Floor division of a whole number of intervals *)



(** ** VideoTimer on floats *)

Section VideoTimer64Facts.
Import VideoTimer64.






Lemma truediv_zero (v : B64.num) :
  B64.fis_zero (B64.exact v) = true ->
  B64.truediv (B64.Int 1) v = Raise ZeroDivisionError.
Proof.
  destruct v as [z|x]; cbn [B64.exact B64.fis_zero]; intros H.
  - apply Qeq_bool_iff in H. unfold Qeq in H. simpl in H.
    assert (z = 0%Z) by lia. subst z. reflexivity.
  - unfold B64.truediv. cbn [B64.to_float bind].
    change (B64.fl (inject_Z 1)) with (Finite 1). cbn [bind].
    rewrite H. reflexivity.
Qed.

(** C9 (as the code has it): assigning [fps] checks neither sign nor size.
    Zero fails with [ZeroDivisionError] and changes nothing.  Any other
    number, negative ones too, for which [1 / fps] is computed sets
    [_interval] to it; then [setInterval] takes [int(_interval * 1000)]
    milliseconds when that is a C int, and otherwise the call fails with
    [_interval] already changed.  However the call ends, [start_index],
    [_len], [start_time] and the running state are as before. *)
Theorem set_fps64_spec (c : t) (v : B64.num) :
  (B64.fis_zero (B64.exact v) = true ->
   set_fps c (Some v) = Failed c ZeroDivisionError)
  /\ (forall i : B64.num,
        B64.truediv (B64.Int 1) v = Ok i ->
        (forall n : Z,
            (ms <- B64.mul i (B64.Int 1000) ;; B64.c_int (Some ms)) = Ok n ->
            set_fps c (Some v)
            = Done (with_period (with_interval c (Some i)) n))
        /\ (forall e : pyerr,
               (ms <- B64.mul i (B64.Int 1000) ;; B64.c_int (Some ms))
               = Raise e ->
               set_fps c (Some v) = Failed (with_interval c (Some i)) e))
  /\ (forall (c' : t) (r : outcome t),
        set_fps c (Some v) = r ->
        r = Done c' \/ (exists e, r = Failed c' e) ->
        start_index c' = start_index c
        /\ _len c' = _len c
        /\ start_time c' = start_time c
        /\ VideoTimer.active (base c') = VideoTimer.active (base c)).
Proof.
  assert (U : set_fps c (Some v)
              = match B64.truediv (B64.Int 1) v with
                | Raise e => Failed c e
                | Ok i =>
                    match (ms <- B64.mul i (B64.Int 1000) ;;
                           B64.c_int (Some ms)) with
                    | Raise e => Failed (with_interval c (Some i)) e
                    | Ok n => Done (with_period (with_interval c (Some i)) n)
                    end
                end).
  { unfold set_fps, B64.vtruediv, B64.lift2.
    destruct (B64.truediv (B64.Int 1) v) as [i|e]; cbn [bind]; [|reflexivity].
    unfold B64.vmul, B64.lift2.
    destruct (B64.mul i (B64.Int 1000)) as [ms|e]; reflexivity. }
  split; [|split].
  - intros Hz. rewrite U, (truediv_zero v Hz). reflexivity.
  - intros i Hi. rewrite U, Hi. split.
    + intros n Hn. rewrite Hn. reflexivity.
    + intros e He. rewrite He. reflexivity.
  - intros c' r Er Hr. rewrite U in Er.
    destruct (B64.truediv (B64.Int 1) v) as [i|e0].
    + destruct (ms <- B64.mul i (B64.Int 1000) ;; B64.c_int (Some ms))
        as [n|e1]; subst r;
        destruct Hr as [Hr|(e & Hr)]; inversion Hr; subst; repeat split.
    + subst r. destruct Hr as [Hr|(e & Hr)]; inversion Hr; subst;
        repeat split.
Qed.

Lemma set_fps64_spec_witness :
  set_fps init (Some (B64.Int 0)) = Failed init ZeroDivisionError.
Proof.
  apply (proj1 (set_fps64_spec init (B64.Int 0))). reflexivity.
Defined.

(** C9, counterexample: the rate -4 is accepted, with the interval -0.25
    and the period -250 ms (and the rate 1e-320, which is positive, is
    refused after [_interval] has become infinite). *)
Lemma set_fps64_accepts_negative :
  (exists c' : t,
      set_fps init (Some (B64.Int (-4))) = Done c'
      /\ _interval c' = Some (Some (B64.Float (Finite (-1 # 4))))
      /\ VideoTimer.interval_ms (base c') = (-250)%Z)
  /\ (exists (x : Q) (c' : t) (e : pyerr),
         B64.fl (1 # 10 ^ 320) = Finite x /\ 0 < x
         /\ set_fps init (Some (B64.Float (Finite x))) = Failed c' e
         /\ _interval c' = Some (Some (B64.Float (Inf false)))).
Proof.
  split.
  - eexists. split; [vm_compute; reflexivity|]. split; reflexivity.
  - eexists. eexists. eexists. split; [vm_compute; reflexivity|].
    split; [reflexivity|]. split; [vm_compute; reflexivity|]. reflexivity.
Qed.

End VideoTimer64Facts.

(** ** Slider on floats *)

Lemma int_of_exact (a : B64.num) (z : Z) :
  B64.int_of a = Ok z ->
  exists q : Q, B64.exact a = Finite q /\ z = Qtrunc q.
Proof.
  destruct a as [n|[q|b|]]; cbn [B64.int_of B64.exact]; intros H;
    try discriminate H; injection H as <-.
  - exists (inject_Z n). split; [reflexivity|]. symmetry. apply Qtrunc_Z.
  - exists q. split; reflexivity.
Qed.

Lemma c_int_range (a : B64.num) (z : Z) :
  B64.c_int (Some a) = Ok z ->
  B64.int_of a = Ok z /\ (- 2 ^ 31 <= z < 2 ^ 31)%Z.
Proof.
  unfold B64.c_int. destruct (B64.int_of a) as [n|e]; cbn [bind];
    [|discriminate].
  destruct (Z.leb (- 2 ^ 31) n && Z.ltb n (2 ^ 31))%bool eqn:R;
    [|discriminate].
  intros H. injection H as <-. apply andb_true_iff in R.
  destruct R as [R1 R2]. apply Z.leb_le in R1. apply Z.ltb_lt in R2.
  split; [reflexivity|lia].
Qed.


(** Numbers in order have their integer parts in order. *)
Lemma int_of_mono (a b : B64.num) (za zb : Z) :
  B64.le a b = true -> B64.int_of a = Ok za -> B64.int_of b = Ok zb ->
  (za <= zb)%Z.
Proof.
  intros L Ha Hb.
  destruct (int_of_exact a za Ha) as (qa & Ea & ->).
  destruct (int_of_exact b zb Hb) as (qb & Eb & ->).
  unfold B64.le in L. rewrite Ea, Eb in L. cbn [B64.fle] in L.
  apply Qle_bool_iff in L. apply Qtrunc_mono, L.
Qed.


Section Slider64Facts.
Context {T : Text64}.
Import Slider64.

Lemma constructed_frame (s s' : t) :
  frame s' = frame s -> editbox s' <> None ->
  constructed s -> constructed s'.
Proof.
  unfold frame. intros E He [_ Ht Hf Hi].
  injection E as En Ecb Es Ef Et El Eh Em Er Emin Emax.
  constructor.
  - exact He.
  - rewrite Et. exact Ht.
  - rewrite Et, Es, El, Emin, Emax. exact Hf.
  - rewrite Et, El, Eh, Emin, Emax. exact Hi.
Qed.

Lemma constructed_min_max (s : t) :
  constructed s ->
  (QSlider.minimum (slider s) <= QSlider.maximum (slider s))%Z.
Proof.
  intros C. destruct (c_type s C) as [Ht|Ht].
  - destruct (c_float s C Ht) as (sc & lf & _ & _ & _ & -> & ->). lia.
  - destruct (c_int s C Ht) as (lo & hi & _ & _ & -> & ->). lia.
Qed.

(** The value read at a position of a float slider. *)
Lemma val64_float (s : t) (sc lf : pyfloat) :
  value_type s = "float"%string ->
  _scale s = Some (Some (B64.Float sc)) ->
  B64.to_float (_low s) = Ok lf ->
  (0 <= QSlider.value (slider s) < 2 ^ 53)%Z ->
  val s
  = Ok (Some (B64.Float
                (B64.fadd
                   (B64.fmul (Finite (inject_Z (QSlider.value (slider s))))
                             sc) lf))).
Proof.
  intros Ht Hs Hl Hp. unfold val. rewrite Ht, Hs.
  cbn [String.eqb Ascii.eqb Bool.eqb B64.getattr bind B64.vmul B64.lift2
       B64.mul].
  rewrite (to_float_int _ Hp).
  cbn [B64.to_float bind B64.vadd B64.lift2 B64.add].
  rewrite Hl. reflexivity.
Qed.

Lemma val64_int (s : t) :
  value_type s = "int"%string ->
  val s = Ok (Some (B64.Int (QSlider.value (slider s)))).
Proof.
  intros Ht. unfold val. rewrite Ht. reflexivity.
Qed.

(** Reading never raises on a constructed slider whose position is in
    range. *)
Lemma val64_ok (s : t) :
  constructed s ->
  (QSlider.minimum (slider s) <= QSlider.value (slider s)
   <= QSlider.maximum (slider s))%Z ->
  exists g : B64.num, val s = Ok (Some g).
Proof.
  intros C Hin. destruct (c_type s C) as [Ht|Ht].
  - destruct (c_float s C Ht) as (sc & lf & Hs & _ & Hl & Hmin & Hmax).
    eexists. apply (val64_float s sc lf Ht Hs Hl).
    rewrite Hmin, Hmax in Hin.
    assert ((1000 < 2 ^ 53)%Z) by reflexivity. lia.
  - eexists. apply (val64_int s Ht).
Qed.

(** [self.val = v] on a constructed slider, with a callback when
    [valueChanged] is connected, when the argument of [setValue] is
    computed and is a C int. *)
Lemma set_val64_done (s : t) (e : QLineEdit) (v x : B64.value)
    (txt : string) (z : Z) :
  constructed s -> (on_move s = true -> callback s = true) ->
  editbox s = Some e ->
  setter_args s v = Ok (x, txt) -> B64.c_int x = Ok z ->
  exists (s' : t) (g : B64.num),
    set_val s v = Done s'
    /\ frame s' = frame s
    /\ QSlider.value (slider s') = clamp s z
    /\ editbox s' = Some {| text := txt; styleSheet := styleSheet e |}
    /\ val s' = Ok (Some g)
    /\ calls s'
       = calls s
         ++ (if negb (Z.eqb (clamp s z) (QSlider.value (slider s)))
                && on_move s
             then [(name s, Some g)] else []).
Proof.
  intros C Hcb He Ha Hz. unfold set_val. rewrite Ha. cbn [fst snd].
  unfold slider_setValue. rewrite Hz.
  set (s1 := with_slider s (QSlider.setValue (slider s) z)).
  assert (C1 : constructed s1).
  { apply (constructed_frame s); [reflexivity| |exact C].
    apply (c_editbox s C). }
  assert (In1 : (QSlider.minimum (slider s1) <= QSlider.value (slider s1)
                 <= QSlider.maximum (slider s1))%Z).
  { pose proof (constructed_min_max s C). unfold s1, QSlider.bound.
    cbn [slider with_slider QSlider.setValue QSlider.minimum
         QSlider.maximum QSlider.value]. unfold QSlider.bound. lia. }
  destruct (val64_ok s1 C1 In1) as (g & Hg).
  exists (with_editbox
            (if negb (Z.eqb (clamp s z) (QSlider.value (slider s)))
                && on_move s
             then with_call
                    (with_editbox s1 (Some (setText e (str64 (Some g)))))
                    (Some g)
             else s1)
            (Some {| text := txt; styleSheet := styleSheet e |})).
  exists g.
  change (QSlider.value (QSlider.setValue (slider s) z)) with (clamp s z).
  destruct (negb (Z.eqb (clamp s z) (QSlider.value (slider s)))
            && on_move s) eqn:Hb.
  - apply andb_prop in Hb. destruct Hb as [_ Hm].
    unfold _on_slider_changed. rewrite Hg.
    change (editbox s1) with (editbox s). rewrite He.
    unfold call_callback.
    change (callback (with_editbox s1 (Some (setText e (str64 (Some g))))))
      with (callback s).
    rewrite (Hcb Hm). cbn [editbox with_call with_editbox].
    split; [reflexivity|]. split; [reflexivity|]. split; [reflexivity|].
    split; [reflexivity|]. split; [exact Hg|reflexivity].
  - change (editbox s1) with (editbox s). rewrite He.
    split; [reflexivity|]. split; [reflexivity|]. split; [reflexivity|].
    split; [reflexivity|]. split; [exact Hg|].
    cbn [calls with_editbox]. unfold s1. cbn [calls with_slider].
    symmetry. apply app_nil_r.
Qed.

Lemma setter_args_int (s : t) (v : B64.value) :
  value_type s = "int"%string -> setter_args s v = Ok (v, str64 v).
Proof.
  intros Ht. unfold setter_args. rewrite Ht. reflexivity.
Qed.


Lemma frame_fields (s s' : t) :
  frame s' = frame s ->
  name s' = name s /\ callback s' = callback s /\ _scale s' = _scale s
  /\ value_type s' = value_type s /\ _low s' = _low s
  /\ _high s' = _high s /\ on_move s' = on_move s
  /\ QSlider.minimum (slider s') = QSlider.minimum (slider s)
  /\ QSlider.maximum (slider s') = QSlider.maximum (slider s).
Proof.
  unfold frame. intros E.
  injection E as En Ecb Es Ef Et El Eh Em Er Emin Emax.
  repeat split; assumption.
Qed.


(** C3 (as the code has it): the setter has no range check.  Whatever the
    number [v], inside the bounds or not, once the argument of [setValue]
    is computed and is a C int [z] the assignment goes through (a callback
    is needed when [valueChanged] is connected), the control takes [z]
    clamped to its range, and [val] reads the value of that position; on
    an int slider with [low <= high] a value above [high] reads back as
    [high] and one below [low] as [low]. *)
Theorem set_val64_no_range_check (s : t) (v : B64.num) (x : B64.value)
    (txt : string) (z : Z) :
  constructed s -> (on_move s = true -> callback s = true) ->
  setter_args s (Some v) = Ok (x, txt) -> B64.c_int x = Ok z ->
  exists (s' : t) (g : B64.num),
    set_val s (Some v) = Done s'
    /\ QSlider.value (slider s') = clamp s z
    /\ (QSlider.minimum (slider s) <= clamp s z
        <= QSlider.maximum (slider s))%Z
    /\ val s' = Ok (Some g)
    /\ (value_type s = "int"%string ->
        forall lo hi : Z,
          B64.c_int (Some (_low s)) = Ok lo ->
          B64.c_int (Some (_high s)) = Ok hi -> (lo <= hi)%Z ->
          (B64.le v (_high s) = false -> g = B64.Int hi)
          /\ (B64.le (_low s) v = false -> g = B64.Int lo)).
Proof.
  intros C Hcb Ha Hz.
  destruct (editbox s) as [e|] eqn:He; [|destruct (c_editbox s C He)].
  destruct (set_val64_done s e (Some v) x txt z C Hcb He Ha Hz)
    as (s' & g & E & Hf & Hv & _ & Hg & _).
  exists s', g. split; [exact E|]. split; [exact Hv|]. split.
  { pose proof (constructed_min_max s C). unfold clamp. lia. }
  split; [exact Hg|].
  intros Ht lo hi Hlo Hhi Hle.
  destruct (c_int s C Ht) as (lo' & hi' & Hlo' & Hhi' & Hmin & Hmax).
  assert (Elo : lo' = lo) by congruence.
  assert (Ehi : hi' = hi) by congruence.
  rewrite Elo in Hmin, Hmax. rewrite Ehi in Hmax. clear Elo Ehi Hlo' Hhi'.
  rewrite (setter_args_int s _ Ht) in Ha. injection Ha as <- _.
  destruct (c_int_range _ _ Hz) as (Iz & _).
  destruct (c_int_range _ _ Hlo) as (Ilo & _).
  destruct (c_int_range _ _ Hhi) as (Ihi & _).
  destruct (int_of_exact _ _ Iz) as (qv & Ev & ->).
  destruct (int_of_exact _ _ Ilo) as (ql & El & ->).
  destruct (int_of_exact _ _ Ihi) as (qh & Eh & ->).
  destruct (frame_fields s s' Hf) as (_ & _ & _ & Et & _).
  rewrite val64_int in Hg by congruence. injection Hg as <-.
  rewrite Hv. unfold clamp. rewrite Hmin, Hmax. unfold B64.le.
  rewrite Ev, El, Eh. cbn [B64.fle]. split; intros Hout; f_equal.
  - assert (qh <= qv).
    { apply Qlt_le_weak, Qnot_le_lt. intros L.
      apply Qle_bool_iff in L. congruence. }
    pose proof (Qtrunc_mono _ _ H). lia.
  - assert (qv <= ql).
    { apply Qlt_le_weak, Qnot_le_lt. intros L.
      apply Qle_bool_iff in L. congruence. }
    pose proof (Qtrunc_mono _ _ H). lia.
Qed.








(** X14: [_on_slider_changed] on a constructed slider whose position is in
    the range of its control reads [val], writes [str(val)] into the edit
    box, keeping the box's style, and calls the callback once with the
    name and the value; the control does not move.  When no callback was
    given (the default of [__init__] is [None]) the call raises
    [TypeError], after the edit box is written. *)
Theorem on_slider_changed64_reports (s : t) (e : QLineEdit) :
  constructed s -> editbox s = Some e ->
  (QSlider.minimum (slider s) <= QSlider.value (slider s)
   <= QSlider.maximum (slider s))%Z ->
  exists g : B64.num,
    val s = Ok (Some g)
    /\ (callback s = true ->
        _on_slider_changed s
        = Done {| name := name s; callback := true;
                  calls := calls s ++ [(name s, Some g)];
                  vertical := vertical s; slider := slider s;
                  _scale := _scale s; value_fmt := value_fmt s;
                  value_type := value_type s; _low := _low s;
                  _high := _high s; on_move := on_move s;
                  on_release := on_release s;
                  editbox := Some {| text := str64 (Some g);
                                     styleSheet := styleSheet e |} |})
    /\ (callback s = false ->
        _on_slider_changed s
        = Failed {| name := name s; callback := false; calls := calls s;
                    vertical := vertical s; slider := slider s;
                    _scale := _scale s; value_fmt := value_fmt s;
                    value_type := value_type s; _low := _low s;
                    _high := _high s; on_move := on_move s;
                    on_release := on_release s;
                    editbox := Some {| text := str64 (Some g);
                                       styleSheet := styleSheet e |} |}
                 TypeError).
Proof.
  intros C He Hin. destruct (val64_ok s C Hin) as (g & Hg).
  exists g. split; [exact Hg|].
  unfold _on_slider_changed, call_callback. rewrite Hg, He.
  cbn [callback with_editbox]. split; intros Hcb; rewrite Hcb.
  - unfold with_call, with_editbox, setText.
    cbn [name callback calls vertical slider _scale value_fmt value_type
         _low _high on_move on_release editbox].
    rewrite Hcb. reflexivity.
  - unfold with_editbox, setText. rewrite Hcb. reflexivity.
Qed.

End Slider64Facts.

(** ** The claims on concrete sliders, with floats *)

Section Concrete64.
Import Slider64 Examples64.
#[local] Existing Instance DecimalText64.text64.

Lemma unit64_init :
  init "x" true (B64.Float (Finite 0)) (B64.Float (Finite 1)) None
       "float" "horizontal" "release" = Ok unit64.
Proof. vm_compute. reflexivity. Qed.


Lemma int64_init :
  init "n" true (B64.Int 2) (B64.Int 10) (Some (B64.Int 4))
       "int" "horizontal" "move" = Ok int64.
Proof. vm_compute. reflexivity. Qed.

Lemma unit64_constructed : constructed unit64.
Proof.
  constructor.
  - discriminate.
  - left. reflexivity.
  - intros _. exists (B64.fl (1 # 1000)), (Finite 0).
    repeat split; vm_compute; reflexivity.
  - intros C. discriminate C.
Qed.


Lemma int64_constructed : constructed int64.
Proof.
  constructor.
  - discriminate.
  - right. reflexivity.
  - intros C. discriminate C.
  - intros _. exists 2%Z, 10%Z. repeat split.
Qed.




Lemma set_val64_no_range_check_witness :
  exists (s' : t) (g : B64.num),
    set_val unit64 (Some (B64.Float (Finite 2))) = Done s'
    /\ QSlider.value (slider s') = clamp unit64 2000
    /\ (QSlider.minimum (slider unit64) <= clamp unit64 2000
        <= QSlider.maximum (slider unit64))%Z
    /\ val s' = Ok (Some g)
    /\ (value_type unit64 = "int"%string ->
        forall lo hi : Z,
          B64.c_int (Some (_low unit64)) = Ok lo ->
          B64.c_int (Some (_high unit64)) = Ok hi -> (lo <= hi)%Z ->
          (B64.le (B64.Float (Finite 2)) (_high unit64) = false ->
           g = B64.Int hi)
          /\ (B64.le (_low unit64) (B64.Float (Finite 2)) = false ->
              g = B64.Int lo)).
Proof.
  apply (set_val64_no_range_check unit64 (B64.Float (Finite 2))
           (Some (B64.Float (Finite 2000))) "2000.0000" 2000
           unit64_constructed (fun _ => eq_refl)).
  - vm_compute. reflexivity.
  - reflexivity.
Defined.

(** C3, counterexample: on [Slider('x', 0.0, 1.0)], at 0.5, the assignment
    [val = 2] raises nothing, moves the control from step 500 to step
    1000, and [val] then reads 1.0.  On [Slider('x', 0.3, 0.9)] the
    assignment [val = 5] raises nothing either, and [val] then reads a
    float above [high]. *)
Lemma set_val64_outside_changes_value :
  init "x" true (B64.Float (Finite 0)) (B64.Float (Finite 1)) None
       "float" "horizontal" "release" = Ok unit64
  /\ QSlider.value (slider unit64) = 500%Z
  /\ val unit64 = Ok (Some (B64.Float (Finite (1 # 2))))
  /\ B64.le (B64.Float (Finite 2)) (_high unit64) = false
  /\ (exists s' : t,
         set_val unit64 (Some (B64.Float (Finite 2))) = Done s'
         /\ QSlider.value (slider s') = 1000%Z
         /\ val s' = Ok (Some (B64.Float (Finite 1))))
  /\ (exists (s s' : t) (h g : Q),
         init "x" true (B64.Float (B64.fl (3 # 10)))
              (B64.Float (B64.fl (9 # 10))) None
              "float" "horizontal" "release" = Ok s
         /\ _high s = B64.Float (Finite h)
         /\ set_val s (Some (B64.Int 5)) = Done s'
         /\ QSlider.value (slider s') = 1000%Z
         /\ val s' = Ok (Some (B64.Float (Finite g)))
         /\ h < g).
Proof.
  split; [exact unit64_init|]. split; [reflexivity|].
  split; [vm_compute; reflexivity|]. split; [reflexivity|]. split.
  - eexists. split; [vm_compute; reflexivity|].
    split; [reflexivity|]. vm_compute. reflexivity.
  - eexists. eexists. eexists. eexists.
    split; [vm_compute; reflexivity|].
    split; [vm_compute; reflexivity|].
    split; [vm_compute; reflexivity|].
    split; [reflexivity|]. split; [vm_compute; reflexivity|].
    reflexivity.
Qed.





Lemma on_slider_changed64_reports_witness :
  exists g : B64.num,
    val unit64 = Ok (Some g)
    /\ _on_slider_changed unit64
       = Done {| name := "x"; callback := true;
                 calls := [("x"%string, Some g)];
                 vertical := false; slider := slider unit64;
                 _scale := _scale unit64; value_fmt := "%2.2f";
                 value_type := "float"; _low := _low unit64;
                 _high := _high unit64; on_move := false;
                 on_release := true;
                 editbox := Some {| text := str64 (Some g);
                                    styleSheet := EmptyString |} |}.
Proof.
  destruct (on_slider_changed64_reports unit64
              {| text := "0.50"; styleSheet := EmptyString |}
              unit64_constructed eq_refl)
    as (g & Hg & Hcall & _).
  - vm_compute. split; discriminate.
  - exists g. split; [exact Hg|]. exact (Hcall eq_refl).
Defined.

End Concrete64.
